(** * EC2 rightsizing report Lambda: a shallow embedding of [ec2-rightsizing.py]

    The Lambda picks a source of rightsizing recommendations (Cost Explorer,
    then Compute Optimizer, then a date-seeded synthetic generator), wraps
    them in a JSON envelope and publishes it twice.

    Modelling conventions:
    - Python values reachable from the JSON responses are the inductive
      [json]; a [dict] is an association list with unique keys.
    - Python exceptions are the constructors of [exn]; fallible code returns
      [res A]; code that also draws random numbers is a state-and-error
      monad [M A] over the state of the [random] module.
    - The platform primitives the program relies on but does not define
      (the Mersenne Twister, IEEE rounding, [float()] on strings, SHA-256)
      are fields of a [Platform] record; [platform_ok] lists the facts about
      them the proofs use.
    - A double is represented by its exact rational value; every float
      operation rounds its exact result with [fl]. *)

From Stdlib Require Import ZArith QArith Qround Qabs List String Ascii Bool Lia Lqa.
Import ListNotations.
Open Scope string_scope.
#[local] Set Warnings "-register-all".

(** ** Python values and exceptions *)

Inductive exn : Type :=
| AttributeError
| TypeError
| ValueError
| IndexError
| RuntimeError
| ClientError      (* botocore.exceptions.ClientError *)
| BotoCoreError.   (* any other botocore failure: connection, timeout, credentials *)

Inductive res (A : Type) : Type :=
| Ok (a : A)
| Raise (e : exn).
Arguments Ok {A} a.
Arguments Raise {A} e.

Definition res_bind {A B} (m : res A) (k : A -> res B) : res B :=
  match m with
  | Ok a => k a
  | Raise e => Raise e
  end.

Notation "'let?' x := m 'in' k" := (res_bind m (fun x => k))
  (at level 200, x name, m at level 100, right associativity).

Inductive json : Type :=
| JNull
| JBool (b : bool)
| JNum (q : Q)
| JStr (s : string)
| JArr (l : list json)
| JObj (kvs : list (string * json)).

Fixpoint assoc (k : string) (kvs : list (string * json)) : option json :=
  match kvs with
  | [] => None
  | (k', v) :: rest => if String.eqb k k' then Some v else assoc k rest
  end.

(** [d.get(k, dflt)]: an [AttributeError] when [d] is not a dict. *)
Definition py_get (d : json) (k : string) (dflt : json) : res json :=
  match d with
  | JObj kvs => Ok (match assoc k kvs with Some v => v | None => dflt end)
  | _ => Raise AttributeError
  end.

(** Python truthiness. *)
Definition truthy (v : json) : bool :=
  match v with
  | JNull => false
  | JBool b => b
  | JNum q => negb (Qeq_bool q 0)
  | JStr s => negb (String.eqb s "")
  | JArr l => negb (List.length l =? 0)%nat
  | JObj kvs => negb (List.length kvs =? 0)%nat
  end.

(** ** The platform *)

Record Platform : Type := {
  St : Type;                          (* state of the [random] module *)
  rseed : Z -> St;                    (* random.seed(n) *)
  rrandom : St -> Q * St;             (* random.random() *)
  rrandbelow : Z -> St -> Z * St;     (* random._randbelow(n) *)
  fl : Q -> Q;                        (* rounding to the nearest double *)
  float_of_str : string -> option Q;  (* float(s) on a str; None: ValueError *)
  sha256 : string -> Z                (* hashlib.sha256(s.encode()) digest,
                                         read as a big-endian integer *)
}.

Record platform_ok (p : Platform) : Prop := {
  (* [random()] is [k / 2^53] with [0 <= k < 2^53] *)
  random_range : forall s,
    0 <= fst (rrandom p s) /\ fst (rrandom p s) <= 1 - (1 # 9007199254740992);
  randbelow_range : forall n s, (0 < n)%Z ->
    (0 <= fst (rrandbelow p n s) < n)%Z;
  fl_mono : forall x y, x <= y -> fl p x <= fl p y;
  (* doubles hold every integer and every [m / 2^j] with [|m| <= 2^53] *)
  fl_int : forall z, (Z.abs z <= 2 ^ 53)%Z -> fl p (inject_Z z) == inject_Z z;
  fl_dyadic : forall m j, (Z.abs m <= 2 ^ 53)%Z -> fl p (m # Pos.pow 2 j) == m # Pos.pow 2 j;
  fl_idem : forall x, fl p (fl p x) == fl p x
}.

(** The state-and-error monad of code that uses the [random] module. *)
Definition M (p : Platform) (A : Type) : Type := St p -> res (A * St p).

Definition mret {p A} (a : A) : M p A := fun s => Ok (a, s).

Definition mbind {p A B} (m : M p A) (k : A -> M p B) : M p B :=
  fun s => match m s with
           | Ok (a, s') => k a s'
           | Raise e => Raise e
           end.

Definition mraise {p A} (e : exn) : M p A := fun _ => Raise e.

Definition mlift {p A} (r : res A) : M p A :=
  match r with
  | Ok a => mret a
  | Raise e => mraise e
  end.

Notation "'let*' x := m 'in' k" := (mbind m (fun x => k))
  (at level 200, x name, m at level 100, right associativity).

(** [x < y] on doubles. *)
Definition qlt (x y : Q) : bool := negb (Qle_bool y x).

(** [seq[i]] on a list, negative indices counting from the end. *)
Definition py_index {A} (l : list A) (i : Z) : res A :=
  let j := if (i <? 0)%Z then (Z.of_nat (List.length l) + i)%Z else i in
  if (j <? 0)%Z then Raise IndexError
  else match nth_error l (Z.to_nat j) with
       | Some a => Ok a
       | None => Raise IndexError
       end.

(** [lst.index(x)]: [None] stands for the [ValueError]. *)
Fixpoint list_index (x : string) (l : list string) : option Z :=
  match l with
  | [] => None
  | y :: rest =>
      if String.eqb x y then Some 0%Z
      else option_map Z.succ (list_index x rest)
  end.

(** [s.split(sep)]. *)
Fixpoint split_chars (sep : ascii) (cs : list ascii) : list (list ascii) :=
  match cs with
  | [] => [[]]
  | c :: rest =>
      let parts := split_chars sep rest in
      if Ascii.eqb c sep then [] :: parts
      else match parts with
           | h :: t => (c :: h) :: t
           | [] => [[c]]
           end
  end.

Definition py_split (sep : ascii) (s : string) : list string :=
  map string_of_list_ascii (split_chars sep (list_ascii_of_string s)).

(** Decimal printing. *)
Definition digit (d : Z) : ascii := ascii_of_nat (48 + Z.to_nat d).

Fixpoint digits_aux (fuel : nat) (n : Z) (acc : string) : string :=
  match fuel with
  | O => acc
  | S f =>
      let acc' := String (digit (n mod 10)) acc in
      if (n <? 10)%Z then acc' else digits_aux f (n / 10) acc'
  end.

(** [str(n)] for [n >= 0]. *)
Definition z_dec (n : Z) : string := digits_aux (S (Z.to_nat (Z.log2 n))) n "".

(** Rounding half to even to an integer, as [round] and the [.2f] format do
    on the exact value of a double. *)
Definition round_half_even (x : Q) : Z :=
  let f := Qfloor x in
  let d := x - inject_Z f in
  if qlt d (1 # 2) then f
  else if qlt (1 # 2) d then (f + 1)%Z
  else if Z.even f then f else (f + 1)%Z.

(** [cents] printed with exactly two decimals, for [cents >= 0]. *)
Definition cents_str (c : Z) : string :=
  z_dec (c / 100) ++ "." ++ String (digit ((c mod 100) / 10))
                                (String (digit (c mod 10)) "").

(** [f"{x:.2f}"]. *)
Definition fmt_2f (x : Q) : string :=
  (if qlt x 0 then "-" else "") ++ cents_str (round_half_even (Qabs x * 100)).

(** [str(y)] of a double [y] returned by [round(x, 2)] with [y >= 0] and
    [y < 1e16]: the shortest repr, trailing zeros removed but one kept. *)
Definition py_repr_2dec (c : Z) : string :=
  if (c mod 100 =? 0)%Z then z_dec (c / 100) ++ ".0"
  else if (c mod 10 =? 0)%Z then
    z_dec (c / 100) ++ "." ++ String (digit ((c mod 100) / 10)) ""
  else cents_str c.

Section Program.

Context (p : Platform).

(** [float(x)]. *)
Definition py_float (x : json) : res Q :=
  match x with
  | JBool b => Ok (if b then 1 else 0)
  | JNum q => Ok q
  | JStr s => match float_of_str p s with Some q => Ok q | None => Raise ValueError end
  | JNull | JArr _ | JObj _ => Raise TypeError
  end.

(** ** Savings aggregator (lines 36-58) *)

(** [total += float(amt) if amt is not None else 0.0] inside
    [try ... except Exception: pass]. *)
Definition add_amount (total : Q) (amt : json) : Q :=
  match amt with
  | JNull => fl p (total + 0)
  | _ => match py_float amt with
         | Ok x => fl p (total + x)
         | Raise _ => total
         end
  end.

(** Lines 40-42 of [_sum_ce_savings]. *)
Definition ce_amount (r : json) : res json :=
  let? m := py_get r "ModifyRecommendationDetail" JNull in
  let? detail :=
    (if truthy m then Ok m
     else let? t := py_get r "TerminateRecommendationDetail" JNull in
          Ok (if truthy t then t else JObj [])) in
  let? savings := py_get detail "EstimatedMonthlySavings" (JObj []) in
  py_get savings "Amount" JNull.

(** Lines 52-53 of [_sum_co_savings]. *)
Definition co_amount (r : json) : res json :=
  let? so := py_get r "savingsOpportunity" (JObj []) in
  let? savings := py_get so "estimatedMonthlySavings" (JObj []) in
  py_get savings "value" JNull.

Fixpoint sum_loop (amount : json -> res json) (total : Q) (recs : list json)
  : res Q :=
  match recs with
  | [] => Ok total
  | r :: rest =>
      let? amt := amount r in
      sum_loop amount (add_amount total amt) rest
  end.

Definition _sum_ce_savings (recs : list json) : res Q := sum_loop ce_amount 0 recs.

Definition _sum_co_savings (recs : list json) : res Q := sum_loop co_amount 0 recs.

(** ** The [random] module as CPython defines it on top of its generator *)

Definition random : M p Q := fun s => Ok (rrandom p s).

Definition _randbelow (n : Z) : M p Z := fun s => Ok (rrandbelow p n s).

(** [random.seed(n)] replaces the whole state. *)
Definition seed (n : Z) : M p unit := fun _ => Ok (tt, rseed p n).

(** [randint(a, b) = randrange(a, b + 1) = a + _randbelow(b + 1 - a)]. *)
Definition randint (a b : Z) : M p Z :=
  let* k := _randbelow (b + 1 - a) in mret (a + k)%Z.

(** [choice(seq) = seq[_randbelow(len(seq))]]. *)
Definition choice {A} (l : list A) : M p A :=
  match l with
  | [] => mraise IndexError
  | _ => let* i := _randbelow (Z.of_nat (List.length l)) in mlift (py_index l i)
  end.

(** [uniform(a, b) = a + (b - a) * random()]. *)
Definition uniform (a b : Q) : M p Q :=
  let* r := random in mret (fl p (a + fl p (fl p (b - a) * r))).

(** [choices(population, k=k)]: [population[floor(random() * n)]], k times. *)
Fixpoint choices (pop : list ascii) (k : nat) : M p (list ascii) :=
  match k with
  | O => mret []
  | S k' =>
      let* r := random in
      let* c := mlift (py_index pop (Qfloor (fl p (r * inject_Z (Z.of_nat (List.length pop)))))) in
      let* cs := choices pop k' in
      mret (c :: cs)
  end.

(** ** Synthetic generator (lines 116-206) *)

Definition FAMILIES : list (string * list string) :=
  [("t3", ["micro"; "small"; "medium"; "large"; "xlarge"; "2xlarge"]);
   ("t4g", ["small"; "medium"; "large"; "xlarge"; "2xlarge"]);
   ("m6i", ["large"; "xlarge"; "2xlarge"]);
   ("m7i", ["large"; "xlarge"; "2xlarge"]);
   ("c7g", ["large"; "xlarge"; "2xlarge"]);
   ("r6i", ["large"; "xlarge"; "2xlarge"])].

(** [int(sha256(today).hexdigest()[:16], 16)]: the first 16 hex digits of
    the 64-digit digest, i.e. its top 64 bits. [today] is
    [utcnow().strftime("%Y-%m-%d")]. *)
Definition _daily_seed (today : string) : Z := Z.shiftr (sha256 p today) 192.

Definition _pick_instance_type : M p string :=
  let* fs := choice FAMILIES in
  let (fam, sizes) := fs in
  let* size := choice sizes in
  mret (fam ++ "." ++ size).

Definition order : list string :=
  ["micro"; "small"; "medium"; "large"; "xlarge"; "2xlarge"; "4xlarge"; "8xlarge"].

(** [if fam.startswith(pre) and random.random() < 0.5: fam = to]. *)
Definition maybe_swap (pre to fam : string) : M p string :=
  if String.prefix pre fam then
    let* r := random in mret (if qlt r (1 # 2) then to else fam)
  else mret fam.

Definition _smaller_type (of_type : string) : M p string :=
  match py_split "." of_type with
  | [fam; size] =>
      let* new_size :=
        match list_index size order with
        | Some idx => mlift (py_index order (Z.max idx 1 - 1))
        | None => mret "small"
        end in
      let* fam := maybe_swap "m6i" "m7g" fam in
      let* fam := maybe_swap "t3" "t4g" fam in
      mret (fam ++ "." ++ new_size)
  | _ => mraise ValueError   (* unpacking of [of_type.split(".")] *)
  end.

Definition _rand_instance_id : M p string :=
  let* cs := choices (list_ascii_of_string "0123456789abcdef") 17 in
  mret ("i-" ++ string_of_list_ascii cs).

Definition usd (amount : string) : json :=
  JObj [("Amount", JStr amount); ("Unit", JStr "USD")].

Definition ec2_details (itype : string) : json :=
  JObj [("EC2ResourceDetails", JObj [("InstanceType", JStr itype)])].

Definition current_instance (rid name current_type : string) : json :=
  JObj [("ResourceId", JStr rid); ("InstanceName", JStr name);
        ("ResourceDetails", ec2_details current_type)].

Definition modify_rec (rid name current_type target_type amount : string) : json :=
  JObj [("AccountId", JStr "913979368763");
        ("CurrentInstance", current_instance rid name current_type);
        ("RightsizingType", JStr "Modify");
        ("ModifyRecommendationDetail",
          JObj [("TargetInstances",
                   JArr [JObj [("EstimatedMonthlySavings", usd amount);
                               ("ResourceDetails", ec2_details target_type);
                               ("ExpectedCost", JObj [("Amount", JStr "—"); ("Unit", JStr "USD")])]]);
                ("EstimatedMonthlySavings", usd amount)])].

Definition terminate_rec (rid name current_type amount : string) : json :=
  JObj [("AccountId", JStr "913979368763");
        ("CurrentInstance", current_instance rid name current_type);
        ("RightsizingType", JStr "Terminate");
        ("TerminateRecommendationDetail",
          JObj [("EstimatedMonthlySavings", usd amount)])].

(** [round(x, 2)] is the double nearest to [c / 100] where [c] is the value
    of [x] in cents rounded half to even; the model keeps the exact value
    [c / 100], which is what its [.2f] format and its repr print. *)
Definition round2_cents (x : Q) : Z := round_half_even (x * 100).

(** One iteration of [for _ in range(n)], lines 160-199. *)
Definition gen_one (total : Q) : M p (Q * json) :=
  let* current_type := _pick_instance_type in
  let* target_type := _smaller_type current_type in
  let* r := random in
  let is_modify := qlt (1 # 4) r in
  let* u := uniform 3 120 in
  let monthly_savings := inject_Z (round2_cents u) / 100 in
  let total' := fl p (total + monthly_savings) in
  let* rid := _rand_instance_id in
  let* k := randint 10 99 in
  if is_modify then
    mret (total', modify_rec rid ("app-" ++ z_dec k) current_type target_type
                             (fmt_2f monthly_savings))
  else
    mret (total', terminate_rec rid ("batch-" ++ z_dec k) current_type
                                (fmt_2f monthly_savings)).

Fixpoint gen_loop (n : nat) (total : Q) (recs : list json) : M p (Q * list json) :=
  match n with
  | O => mret (total, recs)
  | S n' =>
      let* tr := gen_one total in
      gen_loop n' (fst tr) (recs ++ [snd tr])%list
  end.

(** [_gen_synthetic_recs], reading the date [today] from the clock. *)
Definition _gen_synthetic_recs (today : string) : M p (json * list json) :=
  let* _ := seed (_daily_seed today) in
  let* n := randint 2 5 in
  let* tr := gen_loop (Z.to_nat n) 0 [] in
  let* pct := uniform 5 55 in
  let summary :=
    JObj [("TotalEstimatedMonthlySavingsAmount", JStr (fmt_2f (fst tr)));
          ("TotalEstimatedMonthlySavingsCurrency", JStr "USD");
          ("EstimatedSavingsPercentage", JStr (py_repr_2dec (round2_cents pct)))] in
  mret (summary, snd tr).

(** ** The AWS side of one invocation *)

(** The answers the services give during one invocation, and the clock.
    A response list holds the successive answers of a paginated call; when
    it ends before a page without a continuation token, the run is one the
    model does not cover (the loop would go on paging), and the fetchers
    return [None]. *)
Record World : Type := {
  ce_responses : list (res json);  (* ce.get_rightsizing_recommendation *)
  co_responses : list (res json);  (* co.get_ec2_instance_recommendations *)
  co_enrollment : res json;        (* co.get_enrollment_status() *)
  ec2_running : res json;          (* ec2.describe_instances(running) *)
  seed_date : string;              (* utcnow() date read by _daily_seed *)
  key_date : string;               (* utcnow() date read by lambda_handler *)
  now_iso : string;                (* _iso_now() *)
  uuid4 : string;                  (* uuid.uuid4() *)
  rng : St p                       (* state of [random] on entry *)
}.

(** [lst.extend(x)] iterates [x]: a list, the keys of a dict or the
    characters of a str; anything else is a [TypeError]. *)
Definition py_iter (x : json) : res (list json) :=
  match x with
  | JArr l => Ok l
  | JObj kvs => Ok (map (fun kv => JStr (fst kv)) kvs)
  | JStr s => Ok (map (fun c => JStr (String c "")) (list_ascii_of_string s))
  | _ => Raise TypeError
  end.

(** The [while True] loop of [_fetch_ce_rightsizing], lines 65-81. *)
Fixpoint ce_loop (resps : list (res json)) (recs : list json) (summary : json)
  : option (res (json * list json)) :=
  match resps with
  | [] => None
  | Raise e :: _ => Some (Raise e)
  | Ok resp :: rest =>
      match (let? page := py_get resp "RightsizingRecommendations" (JArr []) in
             let? items := py_iter page in
             let? summary' := py_get resp "Summary" summary in
             let? tok := py_get resp "NextPageToken" JNull in
             Ok (items, summary', tok)) with
      | Raise e => Some (Raise e)
      | Ok (items, summary', tok) =>
          if truthy tok then ce_loop rest (recs ++ items)%list summary'
          else Some (Ok (summary', (recs ++ items)%list))
      end
  end.

Definition _fetch_ce_rightsizing (w : World) : option (res (json * list json)) :=
  ce_loop (ce_responses w) [] (JObj []).

(** The [while True] loop of [_fetch_co_rightsizing], lines 87-95. *)
Fixpoint co_loop (resps : list (res json)) (recs : list json)
  : option (res (list json)) :=
  match resps with
  | [] => None
  | Raise e :: _ => Some (Raise e)
  | Ok resp :: rest =>
      match (let? page := py_get resp "instanceRecommendations" (JArr []) in
             let? items := py_iter page in
             let? tok := py_get resp "nextToken" JNull in
             Ok (items, tok)) with
      | Raise e => Some (Raise e)
      | Ok (items, tok) =>
          if truthy tok then co_loop rest (recs ++ items)%list
          else Some (Ok (recs ++ items)%list)
      end
  end.

(** Lines 97-100: only a [ClientError] is caught. *)
Definition enrollment_status (w : World) : res json :=
  match (let? resp := co_enrollment w in py_get resp "status" (JStr "Unknown")) with
  | Raise ClientError => Ok (JStr "Unknown")
  | r => r
  end.

Definition _fetch_co_rightsizing (w : World) : option (res (json * list json)) :=
  match co_loop (co_responses w) [] with
  | None => None
  | Some (Raise e) => Some (Raise e)
  | Some (Ok recs) =>
      Some (let? status := enrollment_status w in
            Ok (JObj [("compute_optimizer_enrollment_status", status)], recs))
  end.

Fixpoint any_instances (reservations : list json) : res bool :=
  match reservations with
  | [] => Ok false
  | r :: rest =>
      let? insts := py_get r "Instances" JNull in
      if truthy insts then Ok true else any_instances rest
  end.

(** [_any_running_instances]: only a [ClientError] is caught. *)
Definition _any_running_instances (w : World) : res bool :=
  match (let? resp := ec2_running w in
         let? rs := py_get resp "Reservations" (JArr []) in
         let? rs := py_iter rs in
         any_instances rs) with
  | Raise ClientError => Ok false
  | r => r
  end.

(** ** The handler (lines 209-262) *)

Definition MIN_SAVINGS : Q := fl p (1 # 100).
Definition RECOMMENDATION_TARGET : string := "CROSS_INSTANCE_FAMILY".
Definition BENEFITS_CONSIDERED : bool := true.
Definition PREFIX : string := "projects/ec2-rightsizing".

(** Calls to the storage and CDN collaborators; [PutObject key obj] is
    [_put_json(obj, key)]. *)
Inductive call : Type :=
| PutObject (key : string) (obj : json)
| CreateInvalidation (path : string) (caller_reference : string).

(** Step 3, lines 229-235. *)
Definition synthesize (w : World) : res (string * json * list json) :=
  let? running := _any_running_instances w in
  if negb running then
    match _gen_synthetic_recs (seed_date w) (rng w) with
    | Ok (sr, _) => Ok ("synthetic", fst sr, snd sr)
    | Raise e => Raise e
    end
  else
    match _gen_synthetic_recs (seed_date w) (rng w) with
    | Ok (sr, _) => Ok ("synthetic", fst sr, snd sr)
    | Raise e => Raise e
    end.

(** Step 2, lines 222-226, falling through to step 3 on any exception. *)
Definition try_compute_optimizer (w : World) : option (res (string * json * list json)) :=
  match _fetch_co_rightsizing w with
  | None => None
  | Some (Ok (summary, recs)) =>
      match _sum_co_savings recs with
      | Ok t => if qlt t MIN_SAVINGS then Some (synthesize w)
                else Some (Ok ("compute-optimizer", summary, recs))
      | Raise _ => Some (synthesize w)
      end
  | Some (Raise _) => Some (synthesize w)
  end.

(** Step 1, lines 215-220, falling through to step 2 on any exception:
    the chosen [source], [summary] and [recs]. *)
Definition choose_source (w : World) : option (res (string * json * list json)) :=
  match _fetch_ce_rightsizing w with
  | None => None
  | Some (Ok (summary, recs)) =>
      match _sum_ce_savings recs with
      | Ok t => if qlt t MIN_SAVINGS then try_compute_optimizer w
                else Some (Ok ("cost-explorer", summary, recs))
      | Raise _ => try_compute_optimizer w
      end
  | Some (Raise _) => try_compute_optimizer w
  end.

(** The [payload] of lines 237-245. *)
Definition envelope (generated_at source : string) (summary : json) (recs : list json) : json :=
  JObj [("generated_at", JStr generated_at);
        ("source", JStr source);
        ("recommendation_target",
           if String.eqb source "cost-explorer" then JStr RECOMMENDATION_TARGET else JNull);
        ("benefits_considered",
           if String.eqb source "cost-explorer" then JBool BENEFITS_CONSIDERED else JNull);
        ("summary", summary);
        ("count", JNum (inject_Z (Z.of_nat (List.length recs))));
        ("recommendations", JArr recs)].

(** The calls issued and the returned dict. *)
Definition lambda_handler (w : World) : option (res (list call * json)) :=
  match choose_source w with
  | None => None
  | Some (Raise e) => Some (Raise e)
  | Some (Ok (source, summary, recs)) =>
      let payload := envelope (now_iso w) source summary recs in
      let dated_key := PREFIX ++ "/" ++ key_date w ++ ".json" in
      let latest_key := PREFIX ++ "/latest.json" in
      Some (Ok ([PutObject dated_key payload;
                 PutObject latest_key payload;
                 CreateInvalidation ("/" ++ latest_key) ("rightsizing-" ++ uuid4 w)],
                JObj [("status", JStr "ok"); ("source", JStr source);
                      ("dated_key", JStr dated_key); ("latest_key", JStr latest_key);
                      ("items", JNum (inject_Z (Z.of_nat (List.length recs))))]))
  end.

(** A fetch attempt of steps 1 and 2 fails: the fetch raises, the
    aggregator raises, or the aggregate is below [MIN_SAVINGS]. *)
Definition ce_attempt_fails (w : World) : Prop :=
  match _fetch_ce_rightsizing w with
  | Some (Raise _) => True
  | Some (Ok (_, recs)) =>
      match _sum_ce_savings recs with Ok t => t < MIN_SAVINGS | Raise _ => True end
  | None => False
  end.

Definition co_attempt_fails (w : World) : Prop :=
  match _fetch_co_rightsizing w with
  | Some (Raise _) => True
  | Some (Ok (_, recs)) =>
      match _sum_co_savings recs with Ok t => t < MIN_SAVINGS | Raise _ => True end
  | None => False
  end.

(** The same invocation with another answer of [ec2.describe_instances]. *)
Definition with_ec2 (w : World) (r : res json) : World :=
  {| ce_responses := ce_responses w; co_responses := co_responses w;
     co_enrollment := co_enrollment w; ec2_running := r;
     seed_date := seed_date w; key_date := key_date w; now_iso := now_iso w;
     uuid4 := uuid4 w; rng := rng w |}.

End Program.

(** ** A small instance of the platform

    A linear-congruential generator with exact arithmetic: the concrete
    inputs of the witnesses and counterexamples run on it. *)

Definition lcg_next (s : Z) : Z := ((1103515245 * s + 12345) mod 2147483648)%Z.

Definition digit_val (c : ascii) : option Z :=
  let n := nat_of_ascii c in
  if ((48 <=? n) && (n <=? 57))%nat then Some (Z.of_nat (n - 48)) else None.

(** The digits of [ddd] or [ddd.ddd]: value, denominator, digits seen. *)
Fixpoint parse_unsigned (cs : list ascii) (acc : Z) (den : positive) (dot any : bool)
  : option Q :=
  match cs with
  | [] => if any then Some (acc # den) else None
  | c :: rest =>
      if Ascii.eqb c "." then
        if dot then None else parse_unsigned rest acc den true any
      else match digit_val c with
           | Some d => parse_unsigned rest (acc * 10 + d)%Z
                         (if dot then (den * 10)%positive else den) dot true
           | None => None
           end
  end.

(** [float(s)] on the plain decimals [-ddd.ddd] the services return; other
    strings are refused. *)
Definition parse_decimal (s : string) : option Q :=
  match list_ascii_of_string s with
  | c :: rest =>
      if Ascii.eqb c "-" then option_map Qopp (parse_unsigned rest 0 1 false false)
      else parse_unsigned (c :: rest) 0 1 false false
  | [] => None
  end.

Definition toy_platform : Platform := {|
  St := Z;
  rseed := fun n => (n mod 2147483648)%Z;
  rrandom := fun s => let s' := lcg_next s in (s' # 2147483648, s');
  rrandbelow := fun n s => let s' := lcg_next s in ((s' mod n)%Z, s');
  fl := fun q => q;
  float_of_str := parse_decimal;
  sha256 := fun s => Z.of_nat (String.length s)
|}.

(** An invocation on [toy_platform] with the given service answers. *)
Definition toy_world (ce co : list (res json)) (enrollment ec2 : res json)
  : World toy_platform :=
  Build_World toy_platform ce co enrollment ec2
    "2026-10-16" "2026-10-16" "2026-10-16T06:00:00+00:00"
    "6f1c2b7e-4a9d-4c1e-9b7a-2f3d5e6a7b8c" 0%Z.

(** A Cost Explorer page with the given recommendations and no token. *)
Definition ce_page (recs : list json) : json :=
  JObj [("RightsizingRecommendations", JArr recs); ("Summary", JObj [])].

(** A Compute Optimizer page with no recommendations and no token. *)
Definition co_empty_page : json := JObj [("instanceRecommendations", JArr [])].

Definition ec2_one_running : json :=
  JObj [("Reservations", JArr [JObj [("Instances", JArr [JObj [("InstanceId", JStr "i-0abc")]])]])].

Definition ec2_none_running : json := JObj [("Reservations", JArr [])].

(** ** Auxiliary definitions of the statements *)

(** The size the code steps to: [order[max(idx, 1) - 1]], or ["small"]. *)
Definition stepped_size (size : string) : string :=
  match list_index size order with
  | Some idx => nth (Z.to_nat (Z.max idx 1 - 1)) order ""
  | None => "small"
  end.

(** A value a double can hold: the rounding of some exact value. *)
Definition is_double (p : Platform) (t : Q) : Prop := exists x, t == fl p x.

(** The amounts of a collection that [float()] accepts, in order: those
    of the records whose amount lookup succeeds, is not [None] and parses. *)
Fixpoint parsed_amounts (p : Platform) (amount : json -> res json) (recs : list json) : list Q :=
  match recs with
  | [] => []
  | r :: rest =>
      match amount r with
      | Ok JNull | Raise _ => parsed_amounts p amount rest
      | Ok amt =>
          match py_float p amt with
          | Ok q => q :: parsed_amounts p amount rest
          | Raise _ => parsed_amounts p amount rest
          end
      end
  end.

(** The float sum of a list of amounts: from [0.0], left to right, each
    addition rounded to a double. *)
Definition float_sum (p : Platform) (qs : list Q) : Q :=
  fold_left (fun t q => fl p (t + q)) qs 0.

(** A record the generator builds: [Modify] or [Terminate], its savings
    amount the string of [c] cents, [c] in [300, 12000]. *)
Definition synthetic_record (r : json) : Prop :=
  exists c, (300 <= c <= 12000)%Z /\
    exists rid name current_type target_type,
      r = modify_rec rid name current_type target_type (cents_str c) \/
      r = terminate_rec rid name current_type (cents_str c).

(** The alphabet of [_rand_instance_id]. *)
Definition hex_digits : list ascii := list_ascii_of_string "0123456789abcdef".

(** A page of [ce.get_rightsizing_recommendation]: its recommendations,
    its [Summary] when it has one, and its [NextPageToken]. *)
Definition ce_response (items : list json) (summary : option json) (tok : json) : json :=
  JObj ([("RightsizingRecommendations", JArr items)] ++
        match summary with Some sm => [("Summary", sm)] | None => [] end ++
        [("NextPageToken", tok)]).

(** The last summary of a run of pages, [dflt] when none has one. *)
Fixpoint last_summary (sms : list (option json)) (dflt : json) : json :=
  match sms with
  | [] => dflt
  | None :: rest => last_summary rest dflt
  | Some sm :: rest => last_summary rest sm
  end.

(** The value a dict holds at [k], [dflt] when it has none: [d.get(k, dflt)]
    on a dict. *)
Definition dict_get (kvs : list (string * json)) (k : string) (dflt : json) : json :=
  match assoc k kvs with Some v => v | None => dflt end.

(** A page of [co.get_ec2_instance_recommendations]. *)
Definition co_response (items : list json) (tok : json) : json :=
  JObj [("instanceRecommendations", JArr items); ("nextToken", tok)].

(** The families [_smaller_type] can give a type of family [fam]. *)
Definition swapped_family (fam fam' : string) : Prop :=
  fam' = fam \/ (String.prefix "m6i" fam = true /\ fam' = "m7g") \/
  (String.prefix "t3" fam = true /\ fam' = "t4g").

(** ["i-"] and 17 characters of [0-9a-f]. *)
Definition instance_id_shape (rid : string) : Prop :=
  exists cs, rid = "i-" ++ string_of_list_ascii cs /\ List.length cs = 17%nat /\
    Forall (fun c => In c hex_digits) cs.

(** A record built by one iteration of the generator loop. *)
Definition generated_record (r : json) : Prop :=
  exists fam sizes size fam' c k rid,
    In (fam, sizes) FAMILIES /\ In size sizes /\ swapped_family fam fam' /\
    (300 <= c <= 12000)%Z /\ (10 <= k <= 99)%Z /\ instance_id_shape rid /\
    (r = modify_rec rid ("app-" ++ z_dec k) (fam ++ "." ++ size)
           (fam' ++ "." ++ stepped_size size) (cents_str c) \/
     r = terminate_rec rid ("batch-" ++ z_dec k) (fam ++ "." ++ size) (cents_str c)).

(** A Cost Explorer [Terminate] record and a Compute Optimizer record
    carrying the given amount. *)
Definition ce_terminate_with_amount (amount : json) : json :=
  JObj [("RightsizingType", JStr "Terminate");
        ("TerminateRecommendationDetail",
          JObj [("EstimatedMonthlySavings", JObj [("Amount", amount); ("Unit", JStr "USD")])])].

Definition co_with_value (value : json) : json :=
  JObj [("savingsOpportunity",
          JObj [("estimatedMonthlySavings",
                  JObj [("currency", JStr "USD"); ("value", value)])])].

(** Both real sources raise; the liveness probe fails with a connection
    error. *)
Definition world_probe_unreachable : World toy_platform :=
  toy_world [Raise ClientError] [Raise ClientError] (Ok (JObj [])) (Raise BotoCoreError).

(** Cost Explorer reports a single record saving exactly 0.01 USD. *)
Definition world_ce_at_threshold : World toy_platform :=
  toy_world [Ok (ce_page [ce_terminate_with_amount (JStr "0.01")])] []
    (Ok (JObj [])) (Ok ec2_none_running).

(** Compute Optimizer pages succeed; the enrollment-status call fails with a
    connection error. *)
Definition world_enrollment_unreachable : World toy_platform :=
  toy_world [Raise ClientError] [Ok co_empty_page] (Raise BotoCoreError) (Ok ec2_none_running).

(** Both real sources raise and one instance is running. *)
Definition world_no_signal : World toy_platform :=
  toy_world [Raise ClientError] [Raise ClientError] (Ok (JObj [])) (Ok ec2_one_running).

(** Cost Explorer pages through two pages; its records carry no usable
    amount. Compute Optimizer pages through two pages saving 5 USD. *)
Definition world_co_pass : World toy_platform :=
  toy_world
    [Ok (ce_response [ce_terminate_with_amount JNull] (Some (JObj [("Total", JStr "0")])) (JStr "p2"));
     Ok (ce_response [] None JNull)]
    [Ok (co_response [co_with_value (JNum 3)] (JStr "n2"));
     Ok (co_response [co_with_value (JNum 2)] (JStr ""))]
    (Ok (JObj [("status", JStr "Active")])) (Ok ec2_one_running).

(** * Proofs *)

Lemma toy_platform_ok : platform_ok toy_platform.
Proof.
  constructor; simpl.
  - intros s. unfold Qle, Qminus, Qplus, Qopp; simpl.
    pose proof (Z.mod_pos_bound (1103515245 * s + 12345) 2147483648 ltac:(lia)).
    unfold lcg_next. lia.
  - intros n s Hn. apply Z.mod_pos_bound. exact Hn.
  - intros x y H. exact H.
  - intros z _. reflexivity.
  - intros m j _. reflexivity.
  - intros x. reflexivity.
Qed.

(** ** Generic facts about the model *)

Lemma py_index_in {A} (l : list A) (i : Z) :
  (0 <= i < Z.of_nat (List.length l))%Z ->
  exists x, py_index l i = Ok x /\ In x l.
Proof.
  intros [H0 H1]. unfold py_index.
  destruct (Z.ltb_spec i 0); [lia|].
  destruct (Z.ltb_spec i 0); [lia|].
  destruct (nth_error l (Z.to_nat i)) eqn:E.
  - exists a. split; [reflexivity|]. eapply nth_error_In. exact E.
  - apply nth_error_None in E. lia.
Qed.

Section Generator.

Context (p : Platform) (Hp : platform_ok p).

Lemma choice_in {A} (l : list A) (s : St p) :
  l <> [] -> exists x s', choice p l s = Ok (x, s') /\ In x l.
Proof.
  intros Hl. unfold choice. destruct l as [|a l']; [congruence|].
  set (l := a :: l').
  unfold mbind, _randbelow.
  destruct (rrandbelow p (Z.of_nat (List.length l)) s) as [i s'] eqn:E.
  pose proof (randbelow_range p Hp (Z.of_nat (List.length l)) s) as R.
  rewrite E in R. simpl in R.
  destruct (py_index_in l i) as [x [Hx Hin]].
  { apply R. simpl. lia. }
  exists x, s'. rewrite Hx. split; [reflexivity | exact Hin].
Qed.

Lemma pick_in_catalog (s : St p) :
  exists fam sizes size s',
    _pick_instance_type p s = Ok (fam ++ "." ++ size, s') /\
    In (fam, sizes) FAMILIES /\ In size sizes.
Proof.
  unfold _pick_instance_type, mbind.
  destruct (choice_in FAMILIES s) as [[fam sizes] [s1 [E1 In1]]]; [discriminate|].
  rewrite E1.
  assert (sizes <> []) as Hne.
  { simpl in In1. intuition congruence. }
  destruct (choice_in sizes s1 Hne) as [size [s2 [E2 In2]]].
  rewrite E2. exists fam, sizes, size, s2. auto.
Qed.

End Generator.

(** ** Splitting an instance type and stepping its size *)

Lemma list_ascii_of_string_app (s1 s2 : string) :
  list_ascii_of_string (s1 ++ s2) = (list_ascii_of_string s1 ++ list_ascii_of_string s2)%list.
Proof. induction s1 as [|c s1 IH]; simpl; [reflexivity | now rewrite IH]. Qed.

Lemma split_chars_no_sep (sep : ascii) (l : list ascii) :
  ~ In sep l -> split_chars sep l = [l].
Proof.
  induction l as [|c l IH]; intros Hn; simpl; [reflexivity|].
  rewrite IH by (intro; apply Hn; now right).
  destruct (Ascii.eqb_spec c sep) as [->|]; [exfalso; apply Hn; now left | reflexivity].
Qed.

Lemma split_chars_app_sep (sep : ascii) (l1 l2 : list ascii) :
  ~ In sep l1 -> split_chars sep (l1 ++ sep :: l2) = l1 :: split_chars sep l2.
Proof.
  induction l1 as [|c l1 IH]; intros Hn; simpl.
  - now rewrite Ascii.eqb_refl.
  - rewrite IH by (intro; apply Hn; now right).
    destruct (Ascii.eqb_spec c sep) as [->|]; [exfalso; apply Hn; now left | reflexivity].
Qed.

(** [fam.size] splits back into [fam] and [size] when neither holds a dot. *)
Lemma py_split_dot (fam size : string) :
  ~ In "."%char (list_ascii_of_string fam) ->
  ~ In "."%char (list_ascii_of_string size) ->
  py_split "." (fam ++ "." ++ size) = [fam; size].
Proof.
  intros Hf Hs. unfold py_split.
  rewrite list_ascii_of_string_app. simpl.
  rewrite split_chars_app_sep by exact Hf.
  rewrite split_chars_no_sep by exact Hs.
  simpl. now rewrite !string_of_list_ascii_of_string.
Qed.

Lemma list_index_bound (x : string) (l : list string) (i : Z) :
  list_index x l = Some i -> (0 <= i < Z.of_nat (List.length l))%Z.
Proof.
  revert i. induction l as [|y l IH]; intros i H; simpl in H; [discriminate|].
  destruct (String.eqb x y).
  - injection H as <-. simpl. lia.
  - destruct (list_index x l) as [j|] eqn:E; simpl in H; [|discriminate].
    injection H as <-. specialize (IH j eq_refl). simpl. lia.
Qed.

Lemma py_index_nth {A} (l : list A) (i : Z) (d : A) :
  (0 <= i < Z.of_nat (List.length l))%Z -> py_index l i = Ok (nth (Z.to_nat i) l d).
Proof.
  intros [H0 H1]. unfold py_index.
  destruct (Z.ltb_spec i 0); [lia|].
  destruct (Z.ltb_spec i 0); [lia|].
  destruct (nth_error l (Z.to_nat i)) eqn:E.
  - apply nth_error_nth with (d := d) in E. now rewrite E.
  - apply nth_error_None in E. lia.
Qed.

Lemma maybe_swap_result (p : Platform) (pre to fam : string) (s : St p) :
  exists fam' s', maybe_swap p pre to fam s = Ok (fam', s') /\ (fam' = fam \/ fam' = to).
Proof.
  unfold maybe_swap, mbind, mret, random.
  destruct (String.prefix pre fam).
  - destruct (rrandom p s) as [r s'].
    exists (if qlt r (1 # 2) then to else fam), s'.
    split; [reflexivity|]. destruct (qlt r (1 # 2)); auto.
  - exists fam, s. auto.
Qed.

Lemma smaller_type_split (p : Platform) (t fam size : string) (s : St p) :
  py_split "." t = [fam; size] ->
  exists fam' s', _smaller_type p t s = Ok (fam' ++ "." ++ stepped_size size, s')
    /\ (fam' = fam \/ fam' = "m7g" \/ fam' = "t4g").
Proof.
  intros Hsp. unfold _smaller_type. rewrite Hsp.
  unfold stepped_size.
  destruct (list_index size order) as [idx|] eqn:Ei.
  - pose proof (list_index_bound _ _ _ Ei) as B. simpl in B.
    rewrite (py_index_nth order (Z.max idx 1 - 1) "") by (simpl; lia).
    unfold mbind at 1, mlift, mret at 1.
    destruct (maybe_swap_result p "m6i" "m7g" fam s) as [f1 [s1 [E1 H1]]].
    unfold mbind. rewrite E1.
    destruct (maybe_swap_result p "t3" "t4g" f1 s1) as [f2 [s2 [E2 H2]]].
    rewrite E2. exists f2, s2. split; [reflexivity|]. intuition congruence.
  - unfold mbind at 1, mret at 1.
    destruct (maybe_swap_result p "m6i" "m7g" fam s) as [f1 [s1 [E1 H1]]].
    unfold mbind. rewrite E1.
    destruct (maybe_swap_result p "t3" "t4g" f1 s1) as [f2 [s2 [E2 H2]]].
    rewrite E2. exists f2, s2. split; [reflexivity|]. intuition congruence.
Qed.

Lemma catalog_types_split (fam : string) (sizes : list string) (size : string) :
  In (fam, sizes) FAMILIES -> In size sizes ->
  py_split "." (fam ++ "." ++ size) = [fam; size] /\
  exists idx, list_index size order = Some idx.
Proof.
  intros H1 H2. simpl in H1.
  destruct H1 as [E|[E|[E|[E|[E|[E|[]]]]]]]; injection E as <- <-; simpl in H2;
    repeat (destruct H2 as [<-|H2]; [split; [reflexivity | eexists; reflexivity] |]);
    contradiction.
Qed.

(** C10: a type drawn by [_pick_instance_type] from [FAMILIES] splits into
    exactly one family and one size, and the size is on the ladder [order],
    so the [ValueError] branch of [_smaller_type] (target ["small"]) is never
    taken for generated types. *)
Theorem generated_type_splits_on_ladder (p : Platform) (Hp : platform_ok p) (s : St p) :
  exists fam size idx s',
    _pick_instance_type p s = Ok (fam ++ "." ++ size, s') /\
    py_split "." (fam ++ "." ++ size) = [fam; size] /\
    list_index size order = Some idx.
Proof.
  destruct (pick_in_catalog p Hp s) as [fam [sizes [size [s' [E [H1 H2]]]]]].
  destruct (catalog_types_split fam sizes size H1 H2) as [Hs [idx Hi]].
  exists fam, size, idx, s'. auto.
Qed.

(** C1 fails on the code: [t3.micro] is a generated type, and its target
    is [t4g.micro] on this platform, whose size [micro] is below [small] on
    the ladder. ([t3.small] likewise steps down to [micro].) *)
Lemma smaller_type_micro_below_small :
  In ("t3", ["micro"; "small"; "medium"; "large"; "xlarge"; "2xlarge"]) FAMILIES /\
  _smaller_type toy_platform "t3.micro" 0%Z = Ok ("t4g.micro", 12345%Z) /\
  _smaller_type toy_platform "t3.small" 5%Z = Ok ("t3.micro", 1222621274%Z) /\
  list_index "micro" order = Some 0%Z /\ list_index "small" order = Some 1%Z.
Proof.
  refine (conj _ (conj _ (conj _ (conj _ _)))).
  - left. reflexivity.
  - vm_compute. reflexivity.
  - vm_compute. reflexivity.
  - reflexivity.
  - reflexivity.
Qed.

(** ** The savings aggregators *)

Section Aggregator.

Context (p : Platform) (Hp : platform_ok p).

Lemma fl_proper (x y : Q) : x == y -> fl p x == fl p y.
Proof.
  intros E. apply Qle_antisym; apply (fl_mono p Hp); rewrite E; apply Qle_refl.
Qed.

Lemma zero_is_double : is_double p 0.
Proof. exists 0. symmetry. apply (fl_int p Hp 0). simpl. lia. Qed.

Lemma add_amount_double (t : Q) (amt : json) :
  is_double p t -> is_double p (add_amount p t amt).
Proof.
  intros Ht. unfold add_amount.
  destruct amt; try (destruct (py_float p _); [eexists; reflexivity | exact Ht]).
  eexists; reflexivity.
Qed.

Lemma add_amount_proper (t t' : Q) (amt : json) :
  t == t' -> add_amount p t amt == add_amount p t' amt.
Proof.
  intros E. unfold add_amount.
  destruct amt; try (destruct (py_float p _); [apply fl_proper; rewrite E; reflexivity | exact E]).
  apply fl_proper. rewrite E. reflexivity.
Qed.

(** A missing or non-numeric amount leaves a running total unchanged. *)
Lemma add_amount_skip (t : Q) (amt : json) :
  is_double p t -> (amt = JNull \/ exists e, py_float p amt = Raise e) ->
  add_amount p t amt == t.
Proof.
  intros [x Hx] Hskip.
  destruct amt; [| destruct Hskip as [Habs|[e He]]; [discriminate|];
                   unfold add_amount; cbv beta iota; rewrite He; reflexivity ..].
  unfold add_amount.
  transitivity (fl p (fl p x)).
  - apply fl_proper. rewrite Qplus_0_r. exact Hx.
  - rewrite (fl_idem p Hp). symmetry. exact Hx.
Qed.

Lemma sum_loop_app (amount : json -> res json) (t : Q) (l1 l2 : list json) :
  sum_loop p amount t (l1 ++ l2) = res_bind (sum_loop p amount t l1) (fun u => sum_loop p amount u l2).
Proof.
  revert t. induction l1 as [|r l1 IH]; intros t; simpl; [reflexivity|].
  destruct (amount r); simpl; [apply IH | reflexivity].
Qed.

Lemma sum_loop_double (amount : json -> res json) (t u : Q) (l : list json) :
  is_double p t -> sum_loop p amount t l = Ok u -> is_double p u.
Proof.
  revert t. induction l as [|r l IH]; intros t Ht H; simpl in H.
  - injection H as <-. exact Ht.
  - destruct (amount r) as [amt|]; [|discriminate].
    apply (IH _ (add_amount_double t amt Ht) H).
Qed.

Lemma sum_loop_proper (amount : json -> res json) (t t' u : Q) (l : list json) :
  t == t' -> sum_loop p amount t l = Ok u ->
  exists u', sum_loop p amount t' l = Ok u' /\ u' == u.
Proof.
  revert t t'. induction l as [|r l IH]; intros t t' E H; simpl in *.
  - injection H as <-. exists t'. split; [reflexivity | now symmetry].
  - destruct (amount r) as [amt|]; [|discriminate].
    exact (IH _ _ (add_amount_proper t t' amt E) H).
Qed.

Lemma sum_loop_total (amount : json -> res json) (t : Q) (l : list json) :
  Forall (fun r => exists amt, amount r = Ok amt) l ->
  exists u, sum_loop p amount t l = Ok u.
Proof.
  intros HF. revert t. induction HF as [|r l [amt Ha] _ IH]; intros t; simpl.
  - eexists; reflexivity.
  - rewrite Ha. apply IH.
Qed.

Lemma sum_loop_skip (amount : json -> res json) (l1 : list json) (r : json) (l2 : list json)
    (amt : json) (t : Q) :
  amount r = Ok amt -> (amt = JNull \/ exists e, py_float p amt = Raise e) ->
  sum_loop p amount 0 (l1 ++ l2) = Ok t ->
  exists t', sum_loop p amount 0 (l1 ++ r :: l2) = Ok t' /\ t' == t.
Proof.
  intros Ha Hskip H.
  rewrite sum_loop_app in H |- *.
  destruct (sum_loop p amount 0 l1) as [u|] eqn:E1; simpl in H |- *; [|discriminate].
  rewrite Ha.
  pose proof (sum_loop_double amount 0 u l1 zero_is_double E1) as Du.
  exact (sum_loop_proper amount u _ t l2 (Qeq_sym _ _ (add_amount_skip u amt Du Hskip)) H).
Qed.

Lemma fl_nonneg (x : Q) : 0 <= x -> 0 <= fl p x.
Proof.
  intros Hx. pose proof (fl_int p Hp 0 ltac:(simpl; lia)) as H0.
  apply Qle_trans with (fl p (inject_Z 0)).
  - apply Qle_lteq. right. symmetry. exact H0.
  - apply (fl_mono p Hp). exact Hx.
Qed.

Lemma fold_fl_proper (qs : list Q) (t t' : Q) :
  t == t' -> fold_left (fun t q => fl p (t + q)) qs t == fold_left (fun t q => fl p (t + q)) qs t'.
Proof.
  revert t t'. induction qs as [|q qs IH]; intros t t' E; simpl; [exact E|].
  apply IH. apply fl_proper. rewrite E. reflexivity.
Qed.

Lemma fold_fl_nonneg (qs : list Q) (t : Q) :
  0 <= t -> Forall (Qle 0) qs -> 0 <= fold_left (fun t q => fl p (t + q)) qs t.
Proof.
  intros Ht HF. revert t Ht. induction HF as [|q qs Hq _ IH]; intros t Ht; simpl; [exact Ht|].
  apply IH. apply fl_nonneg. lra.
Qed.

Lemma add_amount_parsed (t : Q) (amt : json) (q : Q) :
  amt <> JNull -> py_float p amt = Ok q -> add_amount p t amt = fl p (t + q).
Proof.
  intros Hn Hq. unfold add_amount. destruct amt; [contradiction | rewrite Hq; reflexivity ..].
Qed.

Lemma add_amount_rejected (t : Q) (amt : json) (e : exn) :
  amt <> JNull -> py_float p amt = Raise e -> add_amount p t amt = t.
Proof.
  intros Hn He. unfold add_amount. destruct amt; [contradiction | rewrite He; reflexivity ..].
Qed.

(** The running total is the float sum of the accepted amounts. *)
Lemma sum_loop_float_sum (amount : json -> res json) (t u : Q) (l : list json) :
  is_double p t -> sum_loop p amount t l = Ok u ->
  u == fold_left (fun t q => fl p (t + q)) (parsed_amounts p amount l) t.
Proof.
  revert t. induction l as [|r l IH]; intros t Hd H.
  - cbn in H. injection H as <-. reflexivity.
  - cbn [sum_loop] in H. cbn [parsed_amounts].
    destruct (amount r) as [amt | e]; cbn [res_bind] in H; [|discriminate].
    destruct amt as [| b | q0 | str | l0 | kvs].
    1: { apply Qeq_trans with (fold_left (fun t q => fl p (t + q)) (parsed_amounts p amount l)
                                 (add_amount p t JNull)).
         - apply IH; [apply add_amount_double; exact Hd | exact H].
         - apply fold_fl_proper. apply add_amount_skip; [exact Hd | left; reflexivity]. }
    all: destruct (py_float p _) as [q | e] eqn:Ep;
      [rewrite (add_amount_parsed t _ q) in H; [| discriminate | exact Ep]; cbn [fold_left];
       refine (IH _ _ H); exists (t + q); reflexivity
      | rewrite (add_amount_rejected t _ e) in H; [exact (IH _ Hd H) | discriminate | exact Ep]].
Qed.

Lemma sum_loop_nonneg (amount : json -> res json) (l : list json) :
  Forall (fun r => exists amt, amount r = Ok amt) l ->
  Forall (Qle 0) (parsed_amounts p amount l) ->
  exists u, sum_loop p amount 0 l = Ok u /\ 0 <= u.
Proof.
  intros HF Hq. destruct (sum_loop_total amount 0 l HF) as [u Hu].
  exists u. split; [exact Hu|].
  rewrite (sum_loop_float_sum amount 0 u l zero_is_double Hu).
  apply fold_fl_nonneg; [apply Qle_refl | exact Hq].
Qed.

End Aggregator.

(** C2 (as amended): both aggregators raise on no collection whose records
    are dicts with dict-valued detail and savings blocks (whatever their
    amounts), and a record whose amount is missing ([None]) or rejected by
    [float()] adds nothing: inserting it anywhere leaves the total
    unchanged. The total is the float sum (left to right, each addition
    rounded) of the amounts [float()] accepts; it is non-negative when those
    amounts are, and carries no sign guarantee otherwise. *)
Theorem savings_aggregators_tolerant (p : Platform) (Hp : platform_ok p) :
  (forall recs, Forall (fun r => exists amt, ce_amount r = Ok amt) recs ->
     exists t, _sum_ce_savings p recs = Ok t) /\
  (forall recs1 r recs2 amt t,
     ce_amount r = Ok amt -> (amt = JNull \/ exists e, py_float p amt = Raise e) ->
     _sum_ce_savings p (recs1 ++ recs2) = Ok t ->
     exists t', _sum_ce_savings p (recs1 ++ r :: recs2) = Ok t' /\ t' == t) /\
  (forall recs, Forall (fun r => exists amt, co_amount r = Ok amt) recs ->
     exists t, _sum_co_savings p recs = Ok t) /\
  (forall recs1 r recs2 amt t,
     co_amount r = Ok amt -> (amt = JNull \/ exists e, py_float p amt = Raise e) ->
     _sum_co_savings p (recs1 ++ recs2) = Ok t ->
     exists t', _sum_co_savings p (recs1 ++ r :: recs2) = Ok t' /\ t' == t) /\
  (forall recs t, _sum_ce_savings p recs = Ok t -> t == float_sum p (parsed_amounts p ce_amount recs)) /\
  (forall recs, Forall (fun r => exists amt, ce_amount r = Ok amt) recs ->
     Forall (Qle 0) (parsed_amounts p ce_amount recs) ->
     exists t, _sum_ce_savings p recs = Ok t /\ 0 <= t) /\
  (forall recs t, _sum_co_savings p recs = Ok t -> t == float_sum p (parsed_amounts p co_amount recs)) /\
  (forall recs, Forall (fun r => exists amt, co_amount r = Ok amt) recs ->
     Forall (Qle 0) (parsed_amounts p co_amount recs) ->
     exists t, _sum_co_savings p recs = Ok t /\ 0 <= t).
Proof.
  unfold _sum_ce_savings, _sum_co_savings, float_sum.
  refine (conj _ (conj _ (conj _ (conj _ (conj _ (conj _ (conj _ _))))))).
  - intros recs H. apply (sum_loop_total p). exact H.
  - intros recs1 r recs2 amt t Ha Hs H. exact (sum_loop_skip p Hp _ recs1 r recs2 amt t Ha Hs H).
  - intros recs H. apply (sum_loop_total p). exact H.
  - intros recs1 r recs2 amt t Ha Hs H. exact (sum_loop_skip p Hp _ recs1 r recs2 amt t Ha Hs H).
  - intros recs t H. exact (sum_loop_float_sum p Hp _ 0 t recs (zero_is_double p Hp) H).
  - intros recs HF Hq. exact (sum_loop_nonneg p Hp _ recs HF Hq).
  - intros recs t H. exact (sum_loop_float_sum p Hp _ 0 t recs (zero_is_double p Hp) H).
  - intros recs HF Hq. exact (sum_loop_nonneg p Hp _ recs HF Hq).
Qed.

(** C2 fails on the code: a negative amount is summed as it is, so both
    aggregators return a negative total. *)
Lemma aggregators_return_negative :
  (exists t, _sum_ce_savings toy_platform [ce_terminate_with_amount (JStr "-5.00")] = Ok t /\ t < 0) /\
  (exists t, _sum_co_savings toy_platform [co_with_value (JNum (-5))] = Ok t /\ t < 0).
Proof.
  split; eexists; split; [vm_compute; reflexivity | vm_compute; reflexivity
                        | vm_compute; reflexivity | vm_compute; reflexivity].
Qed.

(** ** Running the synthetic generator *)

Lemma round_half_even_bounds (x : Q) (lo hi : Z) :
  inject_Z lo <= x -> x <= inject_Z hi -> (lo <= round_half_even x <= hi)%Z.
Proof.
  intros Hlo Hhi. unfold round_half_even.
  set (f := Qfloor x).
  assert (Hf1 : inject_Z f <= x) by apply Qfloor_le.
  assert (Hf2 : x < inject_Z (f + 1)) by apply Qlt_floor.
  assert (Hl : (lo <= f)%Z).
  { rewrite <- (Qfloor_Z lo). apply Qfloor_resp_le. exact Hlo. }
  assert (Hh : (f <= hi)%Z).
  { rewrite <- (Qfloor_Z hi). apply Qfloor_resp_le. exact Hhi. }
  assert (Hup : (1 # 2) <= x - inject_Z f -> (f + 1 <= hi)%Z).
  { intros Hd. destruct (Z.le_gt_cases (f + 1) hi) as [|Hgt]; [assumption|].
    assert (Heq : f = hi) by lia. rewrite Heq in Hd. lra. }
  unfold qlt.
  destruct (Qle_bool (1 # 2) (x - inject_Z f)) eqn:E1; simpl; [|lia].
  apply Qle_bool_iff in E1.
  destruct (Qle_bool (x - inject_Z f) (1 # 2)); simpl.
  - destruct (Z.even f); specialize (Hup E1); lia.
  - specialize (Hup E1); lia.
Qed.

Lemma inject_Z_minus (a b : Z) : inject_Z (a - b) == inject_Z a - inject_Z b.
Proof. unfold Qeq, Qminus, Qplus, Qopp; simpl; lia. Qed.

Lemma round_half_even_int (x : Q) (z : Z) : x == inject_Z z -> round_half_even x = z.
Proof.
  intros E. unfold round_half_even.
  assert (Hf : Qfloor x = z) by (rewrite E; apply Qfloor_Z).
  rewrite Hf.
  assert (Hd : x - inject_Z z == 0) by (rewrite E; ring).
  unfold qlt.
  destruct (Qle_bool (1 # 2) (x - inject_Z z)) eqn:E1; [|reflexivity].
  apply Qle_bool_iff in E1. rewrite Hd in E1. exfalso. lra.
Qed.

(** [f"{c / 100:.2f}"] prints [c] cents with exactly two decimals. *)
Lemma fmt_2f_cents (c : Z) : (0 <= c)%Z -> fmt_2f (inject_Z c / 100) = cents_str c.
Proof.
  intros Hc. unfold fmt_2f, qlt.
  assert (H0 : Qle_bool 0 (inject_Z c / 100) = true).
  { apply Qle_bool_iff. unfold Qle; simpl; lia. }
  rewrite H0. simpl.
  f_equal. apply round_half_even_int.
  unfold Qeq; simpl. rewrite Z.abs_eq by lia. lia.
Qed.

Section GeneratorRun.

Context (p : Platform) (Hp : platform_ok p).

Lemma random_ok (s : St p) :
  exists r s', random p s = Ok (r, s') /\ 0 <= r /\ r <= 1 - (1 # 9007199254740992).
Proof.
  unfold random. destruct (rrandom p s) as [r s'] eqn:E.
  pose proof (random_range p Hp s) as R. rewrite E in R.
  exists r, s'. auto.
Qed.

Lemma fl_Z (z : Z) : (Z.abs z <= 2 ^ 53)%Z -> fl p (inject_Z z) == inject_Z z.
Proof. apply (fl_int p Hp). Qed.

Lemma uniform_bounds (a b : Z) (s : St p) :
  (0 <= a <= b)%Z -> (b <= 2 ^ 53)%Z ->
  exists u s', uniform p (inject_Z a) (inject_Z b) s = Ok (u, s') /\
               inject_Z a <= u /\ u <= inject_Z b.
Proof.
  intros Hab Hb. unfold uniform, mbind.
  destruct (random_ok s) as [r [s' [E [R0 R1]]]]. rewrite E.
  eexists; exists s'. split; [reflexivity|].
  assert (Hd : fl p (inject_Z b - inject_Z a) == inject_Z (b - a)).
  { rewrite <- (fl_Z (b - a)) by lia.
    apply (fl_proper p Hp). rewrite inject_Z_minus. reflexivity. }
  assert (Hr1 : r <= 1) by lra.
  assert (Hm0 : 0 <= fl p (fl p (inject_Z b - inject_Z a) * r)).
  { rewrite <- (fl_Z 0) by (simpl; lia).
    apply (fl_mono p Hp). rewrite Hd.
    apply Qmult_le_0_compat; [|exact R0].
    unfold Qle; simpl; lia. }
  assert (Hm1 : fl p (fl p (inject_Z b - inject_Z a) * r) <= inject_Z (b - a)).
  { rewrite <- (fl_Z (b - a)) by lia.
    apply (fl_mono p Hp). rewrite Hd.
    assert (0 <= inject_Z (b - a)) by (unfold Qle; simpl; lia).
    rewrite <- (Qmult_1_r (inject_Z (b - a))) at 2.
    apply Qmult_le_compat_nonneg; split; try assumption; apply Qle_refl. }
  rewrite inject_Z_minus in Hm1.
  split.
  - apply Qle_trans with (fl p (inject_Z a)).
    + rewrite (fl_Z a) by lia. apply Qle_refl.
    + apply (fl_mono p Hp). lra.
  - apply Qle_trans with (fl p (inject_Z b)).
    + apply (fl_mono p Hp). lra.
    + rewrite (fl_Z b) by lia. apply Qle_refl.
Qed.

Lemma mbind_ok {A B} (m : M p A) (k : A -> M p B) (s : St p) (a : A) (s' : St p) :
  m s = Ok (a, s') -> mbind m k s = k a s'.
Proof. intros E. unfold mbind. rewrite E. reflexivity. Qed.

Lemma randint_ok (a b : Z) (s : St p) :
  (a <= b)%Z -> exists k s', randint p a b s = Ok (k, s') /\ (a <= k <= b)%Z.
Proof.
  intros Hab. unfold randint, mbind, _randbelow.
  destruct (rrandbelow p (b + 1 - a) s) as [k s'] eqn:E.
  pose proof (randbelow_range p Hp (b + 1 - a) s ltac:(lia)) as R.
  rewrite E in R. simpl in R.
  exists (a + k)%Z, s'. split; [reflexivity | lia].
Qed.

Lemma choices_index_in_range (r : Q) :
  0 <= r -> r <= 1 - (1 # 9007199254740992) ->
  (0 <= Qfloor (fl p (r * inject_Z (Z.of_nat (List.length hex_digits)))) < 16)%Z.
Proof.
  intros R0 R1. change (Z.of_nat (List.length hex_digits)) with 16%Z.
  set (y := fl p (r * inject_Z 16)).
  assert (Hb : r * inject_Z 16 <= 9007199254740991 # Pos.pow 2 49).
  { apply Qle_trans with ((1 - (1 # 9007199254740992)) * inject_Z 16).
    - apply Qmult_le_compat_r; [exact R1 | unfold Qle; simpl; lia].
    - apply Qle_bool_iff. vm_compute. reflexivity. }
  assert (Hy1 : y <= 9007199254740991 # Pos.pow 2 49).
  { apply Qle_trans with (fl p (9007199254740991 # Pos.pow 2 49)).
    - apply (fl_mono p Hp). exact Hb.
    - rewrite (fl_dyadic p Hp) by (simpl; lia). apply Qle_refl. }
  assert (Hy0 : 0 <= y).
  { apply Qle_trans with (fl p (inject_Z 0)).
    - rewrite (fl_Z 0) by (simpl; lia). apply Qle_refl.
    - apply (fl_mono p Hp). apply Qmult_le_0_compat; [exact R0 | unfold Qle; simpl; lia]. }
  split.
  - change 0%Z with (Qfloor 0). apply Qfloor_resp_le. exact Hy0.
  - assert (Hf : inject_Z (Qfloor y) <= y) by apply Qfloor_le.
    assert (Hlt : inject_Z (Qfloor y) < inject_Z 16).
    { apply Qle_lt_trans with y; [exact Hf|].
      apply Qle_lt_trans with (9007199254740991 # Pos.pow 2 49); [exact Hy1|].
      unfold Qlt; vm_compute. reflexivity. }
    rewrite <- Zlt_Qlt in Hlt. exact Hlt.
Qed.

Lemma choices_ok (k : nat) (s : St p) :
  exists cs s', choices p hex_digits k s = Ok (cs, s').
Proof.
  revert s. induction k as [|k IH]; intros s.
  - exists [], s. reflexivity.
  - cbn [choices]. destruct (random_ok s) as [r [s1 [E [R0 R1]]]].
    erewrite mbind_ok by exact E. cbv beta.
    destruct (py_index_in hex_digits (Qfloor (fl p (r * inject_Z (Z.of_nat (List.length hex_digits))))))
      as [c [Hc _]].
    { exact (choices_index_in_range r R0 R1). }
    erewrite mbind_ok by (unfold mlift; rewrite Hc; reflexivity). cbv beta.
    destruct (IH s1) as [cs [s2 E2]].
    erewrite mbind_ok by exact E2.
    exists (c :: cs), s2. reflexivity.
Qed.

Lemma rand_instance_id_ok (s : St p) :
  exists rid s', _rand_instance_id p s = Ok (rid, s').
Proof.
  unfold _rand_instance_id.
  destruct (choices_ok 17 s) as [cs [s' E]].
  erewrite mbind_ok by exact E.
  eexists; eexists; reflexivity.
Qed.

Lemma gen_one_ok (total : Q) (s : St p) :
  exists total' r s', gen_one p total s = Ok ((total', r), s') /\ synthetic_record r.
Proof.
  unfold gen_one.
  destruct (pick_in_catalog p Hp s) as [fam [sizes [size [s1 [E1 [In1 In2]]]]]].
  erewrite mbind_ok by exact E1. cbv beta.
  destruct (catalog_types_split fam sizes size In1 In2) as [Hsp _].
  destruct (smaller_type_split p _ fam size s1 Hsp) as [fam' [s2 [E2 _]]].
  erewrite mbind_ok by exact E2. cbv beta.
  destruct (random_ok s2) as [r [s3 [E3 _]]].
  erewrite mbind_ok by exact E3. cbv beta zeta.
  destruct (uniform_bounds 3 120 s3 ltac:(lia) ltac:(lia)) as [u [s4 [E4 [U0 U1]]]].
  erewrite mbind_ok by exact E4. cbv beta.
  destruct (rand_instance_id_ok s4) as [rid [s5 E5]].
  erewrite mbind_ok by exact E5. cbv beta.
  destruct (randint_ok 10 99 s5 ltac:(lia)) as [k [s6 [E6 _]]].
  erewrite mbind_ok by exact E6. cbv beta.
  assert (Hc : (300 <= round2_cents u <= 12000)%Z).
  { unfold round2_cents. apply round_half_even_bounds.
    - change (inject_Z 3 <= u) in U0. rewrite <- (Qmult_le_r _ _ 100) in U0 by reflexivity.
      apply Qle_trans with (inject_Z 3 * 100); [apply Qle_bool_iff; reflexivity | exact U0].
    - change (u <= inject_Z 120) in U1. rewrite <- (Qmult_le_r _ _ 100) in U1 by reflexivity.
      apply Qle_trans with (inject_Z 120 * 100); [exact U1 | apply Qle_bool_iff; reflexivity]. }
  rewrite fmt_2f_cents by lia.
  destruct (qlt (1 # 4) r); unfold mret.
  - do 3 eexists. split; [reflexivity|].
    exists (round2_cents u). split; [exact Hc|]. do 4 eexists. left. reflexivity.
  - do 3 eexists. split; [reflexivity|].
    exists (round2_cents u). split; [exact Hc|]. do 3 eexists. exists "". right. reflexivity.
Qed.

Lemma gen_loop_ok (n : nat) (total : Q) (recs : list json) (s : St p) :
  Forall synthetic_record recs ->
  exists total' recs' s', gen_loop p n total recs s = Ok ((total', recs'), s') /\
    List.length recs' = (n + List.length recs)%nat /\ Forall synthetic_record recs'.
Proof.
  revert total recs s. induction n as [|n IH]; intros total recs s HF.
  - exists total, recs, s. auto.
  - cbn [gen_loop].
    destruct (gen_one_ok total s) as [total1 [r [s1 [E1 Hr]]]].
    erewrite mbind_ok by exact E1. cbv beta. simpl fst; simpl snd.
    destruct (IH total1 (recs ++ [r])%list s1) as [total2 [recs2 [s2 [E2 [L2 F2]]]]].
    { apply Forall_app. auto. }
    exists total2, recs2, s2. split; [exact E2|]. split; [|exact F2].
    rewrite L2, length_app. simpl. lia.
Qed.

Lemma gen_synthetic_run (today : string) (s : St p) :
  exists summary recs s',
    _gen_synthetic_recs p today s = Ok ((summary, recs), s') /\
    (2 <= List.length recs <= 5)%nat /\
    Forall synthetic_record recs.
Proof.
  unfold _gen_synthetic_recs.
  erewrite mbind_ok by reflexivity. cbv beta.
  destruct (randint_ok 2 5 (rseed p (_daily_seed p today)) ltac:(lia)) as [n [s1 [E1 Hn]]].
  erewrite mbind_ok by exact E1. cbv beta.
  destruct (gen_loop_ok (Z.to_nat n) 0 [] s1 (Forall_nil _)) as [total [recs [s2 [E2 [L2 F2]]]]].
  erewrite mbind_ok by exact E2. cbv beta.
  destruct (uniform_bounds 5 55 s2 ltac:(lia) ltac:(lia)) as [u [s3 [E3 _]]].
  erewrite mbind_ok by exact E3. cbv beta. unfold mret.
  do 3 eexists. split; [reflexivity|]. simpl snd.
  split; [|exact F2].
  rewrite L2. simpl. lia.
Qed.

(** C6: every run of the synthetic generator succeeds and returns between 2
    and 5 records, each a [Modify] or [Terminate] record whose savings
    amount is [cents_str c] for some [c] in [300, 12000]: a value in
    [3.00, 120.00] printed with exactly two decimals. *)
Theorem synthetic_count_and_amounts (today : string) (s : St p) :
  exists summary recs s',
    _gen_synthetic_recs p today s = Ok ((summary, recs), s') /\
    (2 <= List.length recs <= 5)%nat /\
    Forall synthetic_record recs.
Proof. exact (gen_synthetic_run today s). Qed.

End GeneratorRun.

(** [random.seed] discards the state the generator starts from: its output
    is a function of the date alone. *)
Lemma synthetic_output_depends_only_on_date (p : Platform) (today : string) (s1 s2 : St p) :
  _gen_synthetic_recs p today s1 = _gen_synthetic_recs p today s2.
Proof. reflexivity. Qed.

(** ** The handler *)

Lemma qlt_true (x y : Q) : qlt x y = true <-> x < y.
Proof.
  unfold qlt. destruct (Qle_bool y x) eqn:E; simpl.
  - apply Qle_bool_iff in E. split; [discriminate | intros H; exfalso; lra].
  - split; [intros _ | reflexivity].
    apply Qnot_le_lt. intros H. apply Qle_bool_iff in H. congruence.
Qed.

Lemma qlt_false (x y : Q) : qlt x y = false <-> y <= x.
Proof.
  unfold qlt. rewrite <- Qle_bool_iff.
  destruct (Qle_bool y x); simpl; split; congruence.
Qed.

Lemma try_compute_optimizer_fails (p : Platform) (w : World p) :
  co_attempt_fails p w -> try_compute_optimizer p w = Some (synthesize p w).
Proof.
  unfold co_attempt_fails, try_compute_optimizer.
  destruct (_fetch_co_rightsizing p w) as [[[summary recs] | e] |]; [| reflexivity | contradiction].
  destruct (_sum_co_savings p recs) as [t | e]; [| reflexivity].
  intros H. apply qlt_true in H. rewrite H. reflexivity.
Qed.

Lemma choose_source_both_fail (p : Platform) (w : World p) :
  ce_attempt_fails p w -> co_attempt_fails p w ->
  choose_source p w = Some (synthesize p w).
Proof.
  intros Hce Hco. apply try_compute_optimizer_fails in Hco.
  revert Hce. unfold ce_attempt_fails, choose_source.
  destruct (_fetch_ce_rightsizing p w) as [[[summary recs] | e] |]; [| intros _; exact Hco | contradiction].
  destruct (_sum_ce_savings p recs) as [t | e]; [| intros _; exact Hco].
  intros H. apply qlt_true in H. rewrite H. exact Hco.
Qed.

Lemma synthesize_ok (p : Platform) (Hp : platform_ok p) (w : World p) (b : bool) :
  _any_running_instances p w = Ok b ->
  exists summary recs, synthesize p w = Ok ("synthetic", summary, recs).
Proof.
  intros Hb.
  destruct (gen_synthetic_run p Hp (seed_date p w) (rng p w)) as [summary [recs [s' [E _]]]].
  exists summary, recs. unfold synthesize. rewrite Hb. cbn [res_bind].
  rewrite E. destruct b; reflexivity.
Qed.

Lemma lambda_handler_calls (p : Platform) (w : World p) calls ret :
  lambda_handler p w = Some (Ok (calls, ret)) ->
  exists source summary recs,
    choose_source p w = Some (Ok (source, summary, recs)) /\
    calls = [PutObject (PREFIX ++ "/" ++ key_date p w ++ ".json")
               (envelope (now_iso p w) source summary recs);
             PutObject (PREFIX ++ "/latest.json")
               (envelope (now_iso p w) source summary recs);
             CreateInvalidation ("/" ++ PREFIX ++ "/latest.json") ("rightsizing-" ++ uuid4 p w)].
Proof.
  unfold lambda_handler.
  destruct (choose_source p w) as [[[[source summary] recs] | e] |]; try discriminate.
  intros H. injection H as <- <-. exists source, summary, recs. split; reflexivity.
Qed.

Lemma envelope_fields (now source : string) (summary : json) (recs : list json) :
  py_get (envelope now source summary recs) "source" JNull = Ok (JStr source) /\
  py_get (envelope now source summary recs) "recommendation_target" JNull =
    Ok (if String.eqb source "cost-explorer" then JStr RECOMMENDATION_TARGET else JNull) /\
  py_get (envelope now source summary recs) "benefits_considered" JNull =
    Ok (if String.eqb source "cost-explorer" then JBool BENEFITS_CONSIDERED else JNull) /\
  py_get (envelope now source summary recs) "count" JNull =
    Ok (JNum (inject_Z (Z.of_nat (List.length recs)))) /\
  py_get (envelope now source summary recs) "recommendations" JNull = Ok (JArr recs).
Proof. repeat split. Qed.

(** C4, as the code behaves: when both real attempts fail and the liveness
    probe answers (it raises nothing but a [ClientError], which it maps to
    [False]), the handler publishes with source "synthetic" and both
    [recommendation_target] and [benefits_considered] null; and in every
    invocation that publishes, the two fields are non-null only when the
    source is "cost-explorer". *)
Theorem fallback_publishes_synthetic (p : Platform) (Hp : platform_ok p) (w : World p) :
  (ce_attempt_fails p w -> co_attempt_fails p w ->
   (exists b, _any_running_instances p w = Ok b) ->
   exists calls ret,
     lambda_handler p w = Some (Ok (calls, ret)) /\
     py_get ret "source" JNull = Ok (JStr "synthetic") /\
     forall k env, In (PutObject k env) calls ->
       py_get env "source" JNull = Ok (JStr "synthetic") /\
       py_get env "recommendation_target" JNull = Ok JNull /\
       py_get env "benefits_considered" JNull = Ok JNull) /\
  (forall calls ret k env,
     lambda_handler p w = Some (Ok (calls, ret)) -> In (PutObject k env) calls ->
     py_get env "recommendation_target" JNull <> Ok JNull \/
     py_get env "benefits_considered" JNull <> Ok JNull ->
     py_get env "source" JNull = Ok (JStr "cost-explorer")).
Proof.
  split.
  - intros Hce Hco [b Hb].
    destruct (synthesize_ok p Hp w b Hb) as [summary [recs E]].
    unfold lambda_handler. rewrite (choose_source_both_fail p w Hce Hco), E.
    do 2 eexists. split; [reflexivity|]. split; [reflexivity|].
    intros k env Hin. simpl in Hin.
    destruct Hin as [H | [H | [H | []]]]; try discriminate;
      injection H as _ H; subst env; repeat split.
  - intros calls ret k env H Hin Hne.
    destruct (lambda_handler_calls p w calls ret H) as [source [summary [recs [_ ->]]]].
    assert (env = envelope (now_iso p w) source summary recs) as ->.
    { simpl in Hin. destruct Hin as [Hx | [Hx | [Hx | []]]]; try discriminate;
        injection Hx as _ Hx; symmetry; exact Hx. }
    destruct (envelope_fields (now_iso p w) source summary recs) as [Hs [Ht [Hb _]]].
    destruct (String.eqb source "cost-explorer") eqn:Eq.
    + apply String.eqb_eq in Eq. subst source. exact Hs.
    + rewrite Ht, Hb in Hne. destruct Hne as [Hne | Hne]; contradiction.
Qed.

(** C4 fails on the code: both real sources raise and the liveness probe
    fails with a connection error, which [_any_running_instances] does not
    catch; the handler raises and publishes nothing. *)
Lemma fallback_probe_error_escapes :
  ce_attempt_fails toy_platform world_probe_unreachable /\
  co_attempt_fails toy_platform world_probe_unreachable /\
  lambda_handler toy_platform world_probe_unreachable = Some (Raise BotoCoreError).
Proof. split; [exact I | split; [exact I | reflexivity]]. Qed.

(** C5: when the Cost Explorer fetch succeeds with an aggregate equal to
    [MIN_SAVINGS], the handler publishes with source "cost-explorer"; the
    gate passes every aggregate at or above the threshold and moves on to
    Compute Optimizer only when it is strictly below. *)
Theorem ce_threshold_is_inclusive (p : Platform) (w : World p) summary recs (t : Q) :
  _fetch_ce_rightsizing p w = Some (Ok (summary, recs)) ->
  _sum_ce_savings p recs = Ok t ->
  (t == MIN_SAVINGS p ->
     exists calls ret, lambda_handler p w = Some (Ok (calls, ret)) /\
       py_get ret "source" JNull = Ok (JStr "cost-explorer")) /\
  (MIN_SAVINGS p <= t -> choose_source p w = Some (Ok ("cost-explorer", summary, recs))) /\
  (t < MIN_SAVINGS p -> choose_source p w = try_compute_optimizer p w).
Proof.
  intros Hf Hs.
  assert (Hge : MIN_SAVINGS p <= t -> choose_source p w = Some (Ok ("cost-explorer", summary, recs))).
  { intros H. unfold choose_source. rewrite Hf, Hs.
    apply qlt_false in H. rewrite H. reflexivity. }
  split; [|split; [exact Hge|]].
  - intros Heq. unfold lambda_handler. rewrite Hge by (rewrite Heq; apply Qle_refl).
    do 2 eexists. split; reflexivity.
  - intros H. unfold choose_source. rewrite Hf, Hs.
    apply qlt_true in H. rewrite H. reflexivity.
Qed.

(** C7: in every invocation that publishes, the handler writes one payload
    to the dated key and the same payload to the latest key, and the
    payload's [count] is the length of its [recommendations]. *)
Theorem payload_count_and_twin_writes (p : Platform) (w : World p) calls ret :
  lambda_handler p w = Some (Ok (calls, ret)) ->
  exists payload recs inv,
    calls = [PutObject (PREFIX ++ "/" ++ key_date p w ++ ".json") payload;
             PutObject (PREFIX ++ "/latest.json") payload; inv] /\
    py_get payload "recommendations" JNull = Ok (JArr recs) /\
    py_get payload "count" JNull = Ok (JNum (inject_Z (Z.of_nat (List.length recs)))).
Proof.
  intros H.
  destruct (lambda_handler_calls p w calls ret H) as [source [summary [recs [_ ->]]]].
  destruct (envelope_fields (now_iso p w) source summary recs) as [_ [_ [_ [Hc Hr]]]].
  eexists _, recs, _. split; [reflexivity|]. split; [exact Hr | exact Hc].
Qed.

(** C8, as the code behaves: once the recommendation pages are read, a
    [ClientError] from the enrollment-status call gives the status
    "Unknown", while any other failure of that call propagates out of
    [_fetch_co_rightsizing]. *)
Theorem enrollment_failure_outcome (p : Platform) (w : World p) recs :
  co_loop (co_responses p w) [] = Some (Ok recs) ->
  (co_enrollment p w = Raise ClientError ->
     _fetch_co_rightsizing p w =
       Some (Ok (JObj [("compute_optimizer_enrollment_status", JStr "Unknown")], recs))) /\
  (forall e, e <> ClientError -> co_enrollment p w = Raise e ->
     _fetch_co_rightsizing p w = Some (Raise e)).
Proof.
  intros Hl. unfold _fetch_co_rightsizing, enrollment_status. rewrite Hl.
  split.
  - intros He. rewrite He. reflexivity.
  - intros e Hne He. rewrite He. cbn [res_bind].
    destruct e; try reflexivity. contradiction.
Qed.

(** C8 fails on the code: the enrollment-status call fails with a
    connection error and the whole fetch raises. *)
Lemma enrollment_connection_error_escapes :
  co_loop (co_responses toy_platform world_enrollment_unreachable) [] = Some (Ok []) /\
  _fetch_co_rightsizing toy_platform world_enrollment_unreachable = Some (Raise BotoCoreError).
Proof. split; reflexivity. Qed.

(** C9: when the liveness probe answers [True] in one invocation and
    [False] in another that is otherwise the same, step 3 yields the same
    source, summary and records, and the handler the same calls and
    result; and step 3 always reaches the synthetic generator. *)
Theorem liveness_answer_is_irrelevant (p : Platform) (Hp : platform_ok p) (w : World p)
    (d1 d2 : res json) :
  _any_running_instances p (with_ec2 p w d1) = Ok true ->
  _any_running_instances p (with_ec2 p w d2) = Ok false ->
  synthesize p (with_ec2 p w d1) = synthesize p (with_ec2 p w d2) /\
  lambda_handler p (with_ec2 p w d1) = lambda_handler p (with_ec2 p w d2) /\
  (exists summary recs, synthesize p (with_ec2 p w d1) = Ok ("synthetic", summary, recs)).
Proof.
  intros H1 H2.
  assert (Hs : synthesize p (with_ec2 p w d1) = synthesize p (with_ec2 p w d2)).
  { unfold synthesize. rewrite H1, H2. reflexivity. }
  split; [exact Hs | split].
  - unfold lambda_handler, choose_source, try_compute_optimizer. rewrite Hs. reflexivity.
  - exact (synthesize_ok p Hp _ true H1).
Qed.

(** ** Instances of the theorems on [toy_platform] *)

Lemma savings_aggregators_tolerant_witness :
  platform_ok toy_platform /\
  (forall recs, Forall (fun r => exists amt, ce_amount r = Ok amt) recs ->
     exists t, _sum_ce_savings toy_platform recs = Ok t) /\
  (forall recs1 r recs2 amt t,
     ce_amount r = Ok amt -> (amt = JNull \/ exists e, py_float toy_platform amt = Raise e) ->
     _sum_ce_savings toy_platform (recs1 ++ recs2) = Ok t ->
     exists t', _sum_ce_savings toy_platform (recs1 ++ r :: recs2) = Ok t' /\ t' == t) /\
  (forall recs, Forall (fun r => exists amt, co_amount r = Ok amt) recs ->
     exists t, _sum_co_savings toy_platform recs = Ok t) /\
  (forall recs1 r recs2 amt t,
     co_amount r = Ok amt -> (amt = JNull \/ exists e, py_float toy_platform amt = Raise e) ->
     _sum_co_savings toy_platform (recs1 ++ recs2) = Ok t ->
     exists t', _sum_co_savings toy_platform (recs1 ++ r :: recs2) = Ok t' /\ t' == t) /\
  (forall recs t, _sum_ce_savings toy_platform recs = Ok t ->
     t == float_sum toy_platform (parsed_amounts toy_platform ce_amount recs)) /\
  (forall recs, Forall (fun r => exists amt, ce_amount r = Ok amt) recs ->
     Forall (Qle 0) (parsed_amounts toy_platform ce_amount recs) ->
     exists t, _sum_ce_savings toy_platform recs = Ok t /\ 0 <= t) /\
  (forall recs t, _sum_co_savings toy_platform recs = Ok t ->
     t == float_sum toy_platform (parsed_amounts toy_platform co_amount recs)) /\
  (forall recs, Forall (fun r => exists amt, co_amount r = Ok amt) recs ->
     Forall (Qle 0) (parsed_amounts toy_platform co_amount recs) ->
     exists t, _sum_co_savings toy_platform recs = Ok t /\ 0 <= t).
Proof.
  split; [exact toy_platform_ok | exact (savings_aggregators_tolerant toy_platform toy_platform_ok)].
Defined.

Lemma generated_type_splits_on_ladder_witness :
  platform_ok toy_platform /\
  exists fam size idx s',
    _pick_instance_type toy_platform 0%Z = Ok (fam ++ "." ++ size, s') /\
    py_split "." (fam ++ "." ++ size) = [fam; size] /\
    list_index size order = Some idx.
Proof.
  split; [exact toy_platform_ok | exact (generated_type_splits_on_ladder toy_platform toy_platform_ok 0%Z)].
Defined.

Lemma synthetic_count_and_amounts_witness :
  platform_ok toy_platform /\
  exists summary recs s',
    _gen_synthetic_recs toy_platform "2026-10-16" 0%Z = Ok ((summary, recs), s') /\
    (2 <= List.length recs <= 5)%nat /\
    Forall synthetic_record recs.
Proof.
  split; [exact toy_platform_ok | exact (synthetic_count_and_amounts toy_platform toy_platform_ok "2026-10-16" 0%Z)].
Defined.

Lemma fallback_publishes_synthetic_witness :
  platform_ok toy_platform /\
  ce_attempt_fails toy_platform world_no_signal /\
  co_attempt_fails toy_platform world_no_signal /\
  _any_running_instances toy_platform world_no_signal = Ok true /\
  (ce_attempt_fails toy_platform world_no_signal -> co_attempt_fails toy_platform world_no_signal ->
   (exists b, _any_running_instances toy_platform world_no_signal = Ok b) ->
   exists calls ret,
     lambda_handler toy_platform world_no_signal = Some (Ok (calls, ret)) /\
     py_get ret "source" JNull = Ok (JStr "synthetic") /\
     forall k env, In (PutObject k env) calls ->
       py_get env "source" JNull = Ok (JStr "synthetic") /\
       py_get env "recommendation_target" JNull = Ok JNull /\
       py_get env "benefits_considered" JNull = Ok JNull) /\
  (forall calls ret k env,
     lambda_handler toy_platform world_no_signal = Some (Ok (calls, ret)) ->
     In (PutObject k env) calls ->
     py_get env "recommendation_target" JNull <> Ok JNull \/
     py_get env "benefits_considered" JNull <> Ok JNull ->
     py_get env "source" JNull = Ok (JStr "cost-explorer")).
Proof.
  split; [exact toy_platform_ok|].
  split; [exact I|]. split; [exact I|]. split; [reflexivity|].
  exact (fallback_publishes_synthetic toy_platform toy_platform_ok world_no_signal).
Defined.

Lemma ce_threshold_is_inclusive_witness :
  _fetch_ce_rightsizing toy_platform world_ce_at_threshold =
    Some (Ok (JObj [], [ce_terminate_with_amount (JStr "0.01")])) /\
  _sum_ce_savings toy_platform [ce_terminate_with_amount (JStr "0.01")] = Ok (1 # 100) /\
  (1 # 100) == MIN_SAVINGS toy_platform /\
  ((1 # 100) == MIN_SAVINGS toy_platform ->
     exists calls ret, lambda_handler toy_platform world_ce_at_threshold = Some (Ok (calls, ret)) /\
       py_get ret "source" JNull = Ok (JStr "cost-explorer")) /\
  (MIN_SAVINGS toy_platform <= (1 # 100) ->
     choose_source toy_platform world_ce_at_threshold =
       Some (Ok ("cost-explorer", JObj [], [ce_terminate_with_amount (JStr "0.01")]))) /\
  ((1 # 100) < MIN_SAVINGS toy_platform ->
     choose_source toy_platform world_ce_at_threshold =
       try_compute_optimizer toy_platform world_ce_at_threshold).
Proof.
  split; [reflexivity|]. split; [reflexivity|]. split; [reflexivity|].
  apply (ce_threshold_is_inclusive toy_platform world_ce_at_threshold); reflexivity.
Defined.

Lemma payload_count_and_twin_writes_witness :
  exists calls ret,
    lambda_handler toy_platform world_ce_at_threshold = Some (Ok (calls, ret)) /\
    exists payload recs inv,
      calls = [PutObject (PREFIX ++ "/" ++ key_date toy_platform world_ce_at_threshold ++ ".json") payload;
               PutObject (PREFIX ++ "/latest.json") payload; inv] /\
      py_get payload "recommendations" JNull = Ok (JArr recs) /\
      py_get payload "count" JNull = Ok (JNum (inject_Z (Z.of_nat (List.length recs)))).
Proof.
  do 2 eexists. split; [reflexivity|].
  eapply (payload_count_and_twin_writes toy_platform world_ce_at_threshold). reflexivity.
Defined.

Lemma enrollment_failure_outcome_witness :
  co_loop (co_responses toy_platform world_enrollment_unreachable) [] = Some (Ok []) /\
  (co_enrollment toy_platform world_enrollment_unreachable = Raise ClientError ->
     _fetch_co_rightsizing toy_platform world_enrollment_unreachable =
       Some (Ok (JObj [("compute_optimizer_enrollment_status", JStr "Unknown")], []))) /\
  (forall e, e <> ClientError -> co_enrollment toy_platform world_enrollment_unreachable = Raise e ->
     _fetch_co_rightsizing toy_platform world_enrollment_unreachable = Some (Raise e)).
Proof.
  split; [reflexivity|].
  apply (enrollment_failure_outcome toy_platform world_enrollment_unreachable []). reflexivity.
Defined.

Lemma liveness_answer_is_irrelevant_witness :
  platform_ok toy_platform /\
  _any_running_instances toy_platform (with_ec2 toy_platform world_no_signal (Ok ec2_one_running)) = Ok true /\
  _any_running_instances toy_platform (with_ec2 toy_platform world_no_signal (Ok ec2_none_running)) = Ok false /\
  synthesize toy_platform (with_ec2 toy_platform world_no_signal (Ok ec2_one_running)) =
    synthesize toy_platform (with_ec2 toy_platform world_no_signal (Ok ec2_none_running)) /\
  lambda_handler toy_platform (with_ec2 toy_platform world_no_signal (Ok ec2_one_running)) =
    lambda_handler toy_platform (with_ec2 toy_platform world_no_signal (Ok ec2_none_running)) /\
  (exists summary recs,
     synthesize toy_platform (with_ec2 toy_platform world_no_signal (Ok ec2_one_running)) =
       Ok ("synthetic", summary, recs)).
Proof.
  split; [exact toy_platform_ok|]. split; [reflexivity|]. split; [reflexivity|].
  apply (liveness_answer_is_irrelevant toy_platform toy_platform_ok world_no_signal); reflexivity.
Defined.

(** * Further properties of the program *)

(** ** Pagination of the fetchers *)

Lemma ce_loop_pages (pages : list (list (string * json) * list json))
    (last : list (string * json)) (items : list json) (rest : list (res json))
    (recs : list json) (summary : json) :
  Forall (fun pg => dict_get (fst pg) "RightsizingRecommendations" (JArr []) = JArr (snd pg) /\
                    truthy (dict_get (fst pg) "NextPageToken" JNull) = true) pages ->
  dict_get last "RightsizingRecommendations" (JArr []) = JArr items ->
  truthy (dict_get last "NextPageToken" JNull) = false ->
  ce_loop (map (fun pg => Ok (JObj (fst pg))) pages ++ Ok (JObj last) :: rest)%list recs summary =
  Some (Ok (last_summary (map (fun pg => assoc "Summary" (fst pg)) pages ++ [assoc "Summary" last])%list
              summary,
            (recs ++ List.concat (map snd pages) ++ items)%list)).
Proof.
  revert recs summary.
  induction pages as [|[kvs its] pages IH]; intros recs summary Hp Hi Ht.
  - cbn [map app ce_loop]. unfold py_get. fold (dict_get last "RightsizingRecommendations" (JArr [])).
    fold (dict_get last "NextPageToken" JNull). rewrite Hi. cbn [res_bind py_iter].
    rewrite Ht.
    unfold dict_get. destruct (assoc "Summary" last); reflexivity.
  - inversion Hp as [|? ? [Hik Htk] Hp']; subst. simpl in Hik, Htk.
    assert (Gi : py_get (JObj kvs) "RightsizingRecommendations" (JArr []) = Ok (JArr its))
      by (unfold py_get; f_equal; exact Hik).
    assert (Gs : py_get (JObj kvs) "Summary" summary = Ok (dict_get kvs "Summary" summary))
      by reflexivity.
    assert (Gt : py_get (JObj kvs) "NextPageToken" JNull = Ok (dict_get kvs "NextPageToken" JNull))
      by reflexivity.
    cbn [map app ce_loop fst snd]. rewrite Gi, Gs, Gt. cbn [res_bind py_iter].
    rewrite Htk. rewrite IH by assumption.
    cbn [last_summary map List.concat app]. rewrite <- !app_assoc.
    unfold dict_get. destruct (assoc "Summary" kvs); reflexivity.
Qed.


Lemma co_loop_pages (pages : list (list (string * json) * list json))
    (last : list (string * json)) (items : list json) (rest : list (res json)) (recs : list json) :
  Forall (fun pg => dict_get (fst pg) "instanceRecommendations" (JArr []) = JArr (snd pg) /\
                    truthy (dict_get (fst pg) "nextToken" JNull) = true) pages ->
  dict_get last "instanceRecommendations" (JArr []) = JArr items ->
  truthy (dict_get last "nextToken" JNull) = false ->
  co_loop (map (fun pg => Ok (JObj (fst pg))) pages ++ Ok (JObj last) :: rest)%list recs =
  Some (Ok (recs ++ List.concat (map snd pages) ++ items)%list).
Proof.
  revert recs.
  induction pages as [|[kvs its] pages IH]; intros recs Hp Hi Ht.
  - cbn [map app co_loop]. unfold py_get. fold (dict_get last "instanceRecommendations" (JArr [])).
    fold (dict_get last "nextToken" JNull). rewrite Hi. cbn [res_bind py_iter].
    rewrite Ht. reflexivity.
  - inversion Hp as [|? ? [Hik Htk] Hp']; subst. simpl in Hik, Htk.
    assert (Gi : py_get (JObj kvs) "instanceRecommendations" (JArr []) = Ok (JArr its))
      by (unfold py_get; f_equal; exact Hik).
    assert (Gt : py_get (JObj kvs) "nextToken" JNull = Ok (dict_get kvs "nextToken" JNull))
      by reflexivity.
    cbn [map app co_loop fst snd]. rewrite Gi, Gt. cbn [res_bind py_iter]. cbn [res_bind py_iter].
    rewrite Htk, IH by assumption.
    cbn [map List.concat]. rewrite <- !app_assoc. reflexivity.
Qed.

(** [_fetch_ce_rightsizing] reads pages while they carry a truthy
    [NextPageToken] and stops at the first page whose token is missing or
    falsy, requesting no more: it returns the recommendations of all pages
    read, in order, and the [Summary] of the last page that has one ([{}]
    when none has). Pages may hold any other keys. *)
Theorem fetch_ce_concatenates_pages (p : Platform) (w : World p)
    (pages : list (list (string * json) * list json)) (last : list (string * json))
    (items : list json) (rest : list (res json)) :
  Forall (fun pg => dict_get (fst pg) "RightsizingRecommendations" (JArr []) = JArr (snd pg) /\
                    truthy (dict_get (fst pg) "NextPageToken" JNull) = true) pages ->
  dict_get last "RightsizingRecommendations" (JArr []) = JArr items ->
  truthy (dict_get last "NextPageToken" JNull) = false ->
  ce_responses p w = (map (fun pg => Ok (JObj (fst pg))) pages ++ Ok (JObj last) :: rest)%list ->
  _fetch_ce_rightsizing p w =
    Some (Ok (last_summary (map (fun pg => assoc "Summary" (fst pg)) pages ++ [assoc "Summary" last])%list
                (JObj []),
              (List.concat (map snd pages) ++ items)%list)).
Proof.
  intros Hp Hi Ht Hw. unfold _fetch_ce_rightsizing. rewrite Hw.
  rewrite (ce_loop_pages pages last items) by assumption. reflexivity.
Qed.


(** [_fetch_co_rightsizing] reads pages while they carry a truthy
    [nextToken] and stops at the first page whose token is missing or
    falsy: it returns the recommendations of all pages read, in order, and
    a summary whose [compute_optimizer_enrollment_status] is the [status]
    of the enrollment answer, or ["Unknown"] when it has none. *)
Theorem fetch_co_concatenates_pages (p : Platform) (w : World p)
    (pages : list (list (string * json) * list json)) (last : list (string * json))
    (items : list json) (rest : list (res json)) (kvs : list (string * json)) :
  Forall (fun pg => dict_get (fst pg) "instanceRecommendations" (JArr []) = JArr (snd pg) /\
                    truthy (dict_get (fst pg) "nextToken" JNull) = true) pages ->
  dict_get last "instanceRecommendations" (JArr []) = JArr items ->
  truthy (dict_get last "nextToken" JNull) = false ->
  co_responses p w = (map (fun pg => Ok (JObj (fst pg))) pages ++ Ok (JObj last) :: rest)%list ->
  co_enrollment p w = Ok (JObj kvs) ->
  _fetch_co_rightsizing p w =
    Some (Ok (JObj [("compute_optimizer_enrollment_status", dict_get kvs "status" (JStr "Unknown"))],
              (List.concat (map snd pages) ++ items)%list)).
Proof.
  intros Hp Hi Ht Hw He. unfold _fetch_co_rightsizing, enrollment_status. rewrite Hw.
  rewrite (co_loop_pages pages last items) by assumption. rewrite He. reflexivity.
Qed.

(** ** The liveness probe *)

Lemma any_instances_dicts (rs : list (list (string * json))) :
  any_instances (map JObj rs) =
  Ok (existsb (fun r => truthy (match assoc "Instances" r with Some v => v | None => JNull end)) rs).
Proof.
  induction rs as [|r rs IH]; [reflexivity|].
  cbn [map any_instances existsb]. unfold py_get. cbn [res_bind].
  destruct (truthy _); [reflexivity | exact IH].
Qed.

(** [_any_running_instances] answers whether some reservation has a
    non-empty [Instances]; no [Reservations] means [False]; a [ClientError]
    from [describe_instances] gives [False], and any other error of the call
    propagates. *)
Theorem running_probe_outcome (p : Platform) (w : World p) :
  (forall kvs rs, ec2_running p w = Ok (JObj kvs) ->
     assoc "Reservations" kvs = Some (JArr (map JObj rs)) ->
     _any_running_instances p w =
       Ok (existsb (fun r => truthy (match assoc "Instances" r with Some v => v | None => JNull end)) rs)) /\
  (forall kvs, ec2_running p w = Ok (JObj kvs) -> assoc "Reservations" kvs = None ->
     _any_running_instances p w = Ok false) /\
  (ec2_running p w = Raise ClientError -> _any_running_instances p w = Ok false) /\
  (forall e, e <> ClientError -> ec2_running p w = Raise e -> _any_running_instances p w = Raise e).
Proof.
  unfold _any_running_instances. split; [|split; [|split]].
  - intros kvs rs He Hr. rewrite He. cbn [res_bind]. unfold py_get. rewrite Hr.
    cbn [res_bind py_iter]. rewrite any_instances_dicts. reflexivity.
  - intros kvs He Hr. rewrite He. cbn [res_bind]. unfold py_get. rewrite Hr. reflexivity.
  - intros He. rewrite He. reflexivity.
  - intros e Hne He. rewrite He. cbn [res_bind]. destruct e; try reflexivity. contradiction.
Qed.

(** ** The size step *)

Lemma split_chars_not_nil (sep : ascii) (l : list ascii) : split_chars sep l <> [].
Proof.
  destruct l as [|c l]; simpl; [discriminate|].
  destruct (Ascii.eqb c sep); [discriminate|].
  destruct (split_chars sep l); discriminate.
Qed.

Lemma split_chars_length (sep : ascii) (l : list ascii) :
  List.length (split_chars sep l) = S (count_occ ascii_dec l sep).
Proof.
  induction l as [|c l IH]; [reflexivity|].
  cbn [split_chars count_occ].
  destruct (Ascii.eqb_spec c sep) as [->|Hne].
  - destruct (ascii_dec sep sep) as [_|]; [|contradiction]. simpl. rewrite IH. reflexivity.
  - destruct (ascii_dec c sep) as [|_]; [contradiction|].
    pose proof (split_chars_not_nil sep l) as Hnn.
    destruct (split_chars sep l) as [|h t]; [contradiction|]. exact IH.
Qed.

Lemma py_split_length (s : string) :
  List.length (py_split "." s) = S (count_occ ascii_dec (list_ascii_of_string s) "."%char).
Proof. unfold py_split. rewrite length_map. apply split_chars_length. Qed.

Lemma new_size_step (p : Platform) (size : string) (s : St p) :
  (match list_index size order with
   | Some idx => mlift (py_index order (Z.max idx 1 - 1))
   | None => mret "small"
   end) s = Ok (stepped_size size, s).
Proof.
  unfold stepped_size. destruct (list_index size order) as [idx|] eqn:Ei; [|reflexivity].
  pose proof (list_index_bound _ _ _ Ei) as B. simpl in B.
  rewrite (py_index_nth order (Z.max idx 1 - 1) "") by (simpl; lia). reflexivity.
Qed.

(** [_smaller_type] raises [ValueError] exactly when the type does not hold
    exactly one dot (the two-name unpacking of [split(".")] fails);
    otherwise it returns a type. *)
Theorem smaller_type_needs_one_dot (p : Platform) (t : string) (s : St p) :
  (count_occ ascii_dec (list_ascii_of_string t) "."%char <> 1%nat ->
     _smaller_type p t s = Raise ValueError) /\
  (count_occ ascii_dec (list_ascii_of_string t) "."%char = 1%nat ->
     exists t' s', _smaller_type p t s = Ok (t', s')).
Proof.
  pose proof (py_split_length t) as L. split.
  - intros Hc. unfold _smaller_type.
    destruct (py_split "." t) as [|a [|b [|c rest]]]; simpl in L; try reflexivity; lia.
  - intros Hc. rewrite Hc in L.
    destruct (py_split "." t) as [|fam [|size [|c rest]]] eqn:E; simpl in L; try lia.
    destruct (smaller_type_split p t fam size s E) as [fam' [s' [E' _]]].
    eexists; eexists; exact E'.
Qed.

Lemma prefix_m6i_not_t3 (fam : string) :
  String.prefix "m6i" fam = true -> String.prefix "t3" fam = false.
Proof.
  destruct fam as [|a fam]; [discriminate|].
  cbn [String.prefix]. destruct (ascii_dec "m"%char a) as [<-|]; [reflexivity | discriminate].
Qed.

Lemma maybe_swap_skip (p : Platform) (pre to fam : string) (s : St p) :
  String.prefix pre fam = false -> maybe_swap p pre to fam s = Ok (fam, s).
Proof. intros H. unfold maybe_swap. rewrite H. reflexivity. Qed.

Lemma maybe_swap_draw (p : Platform) (pre to fam : string) (s : St p) :
  String.prefix pre fam = true ->
  maybe_swap p pre to fam s =
    Ok (if qlt (fst (rrandom p s)) (1 # 2) then to else fam, snd (rrandom p s)).
Proof.
  intros H. unfold maybe_swap. rewrite H. unfold mbind, random, mret.
  destruct (rrandom p s). reflexivity.
Qed.

(** [_smaller_type] keeps any family that does not start with [m6i] or
    [t3] and then draws no random number; a family starting with [m6i]
    (resp. [t3]) draws exactly one [random()] and becomes [m7g] (resp.
    [t4g]) when it is below 0.5. The size step draws nothing. *)
Theorem smaller_type_random_use (p : Platform) (fam size : string) (s : St p) :
  ~ In "."%char (list_ascii_of_string fam) ->
  ~ In "."%char (list_ascii_of_string size) ->
  (String.prefix "m6i" fam = false -> String.prefix "t3" fam = false ->
     _smaller_type p (fam ++ "." ++ size) s = Ok (fam ++ "." ++ stepped_size size, s)) /\
  (String.prefix "m6i" fam = true ->
     _smaller_type p (fam ++ "." ++ size) s =
       Ok ((if qlt (fst (rrandom p s)) (1 # 2) then "m7g" else fam) ++ "." ++ stepped_size size,
           snd (rrandom p s))) /\
  (String.prefix "t3" fam = true ->
     _smaller_type p (fam ++ "." ++ size) s =
       Ok ((if qlt (fst (rrandom p s)) (1 # 2) then "t4g" else fam) ++ "." ++ stepped_size size,
           snd (rrandom p s))).
Proof.
  intros Hf Hs. unfold _smaller_type. rewrite py_split_dot by assumption.
  rewrite (mbind_ok p _ _ s (stepped_size size) s (new_size_step p size s)). cbv beta.
  split; [|split].
  - intros H1 H2.
    rewrite (mbind_ok p _ _ s fam s (maybe_swap_skip p _ _ _ s H1)). cbv beta.
    rewrite (mbind_ok p _ _ s fam s (maybe_swap_skip p _ _ _ s H2)). reflexivity.
  - intros H1. pose proof (prefix_m6i_not_t3 fam H1) as H2.
    rewrite (mbind_ok p _ _ _ _ _ (maybe_swap_draw p _ "m7g" _ s H1)). cbv beta.
    destruct (qlt (fst (rrandom p s)) (1 # 2)).
    + rewrite (mbind_ok p _ _ _ "m7g" _ (maybe_swap_skip p "t3" "t4g" "m7g" _ eq_refl)). reflexivity.
    + rewrite (mbind_ok p _ _ _ fam _ (maybe_swap_skip p "t3" "t4g" fam _ H2)). reflexivity.
  - intros H2.
    assert (H1 : String.prefix "m6i" fam = false).
    { destruct (String.prefix "m6i" fam) eqn:E; [|reflexivity].
      rewrite (prefix_m6i_not_t3 fam E) in H2. discriminate. }
    rewrite (mbind_ok p _ _ s fam s (maybe_swap_skip p _ _ _ s H1)). cbv beta.
    rewrite (mbind_ok p _ _ _ _ _ (maybe_swap_draw p _ "t4g" _ s H2)). reflexivity.
Qed.

(** ** The aggregators' failures *)

Lemma sum_loop_raise (p : Platform) (amount : json -> res json) (t : Q)
    (l1 : list json) (r : json) (l2 : list json) (e : exn) :
  Forall (fun r => exists amt, amount r = Ok amt) l1 -> amount r = Raise e ->
  sum_loop p amount t (l1 ++ r :: l2) = Raise e.
Proof.
  revert t. induction l1 as [|x l1 IH]; intros t H1 Hr.
  - simpl. rewrite Hr. reflexivity.
  - inversion H1 as [|? ? [amt Ha] H1']; subst.
    simpl. rewrite Ha. cbn [res_bind]. apply IH; assumption.
Qed.

(** The [try] of the aggregators covers only [float()]: the first record
    whose amount cannot be looked up (a record, detail or savings block
    that is not a dict) makes the aggregator raise, an [AttributeError]
    for a record that is not a dict; the handler then treats Cost
    Explorer as failed and moves on to Compute Optimizer. *)
Theorem aggregator_lookup_errors_escape (p : Platform) :
  (forall recs1 r recs2 e,
     Forall (fun r => exists amt, ce_amount r = Ok amt) recs1 -> ce_amount r = Raise e ->
     _sum_ce_savings p (recs1 ++ r :: recs2) = Raise e) /\
  (forall recs1 r recs2 e,
     Forall (fun r => exists amt, co_amount r = Ok amt) recs1 -> co_amount r = Raise e ->
     _sum_co_savings p (recs1 ++ r :: recs2) = Raise e) /\
  (forall r, (forall kvs, r <> JObj kvs) ->
     ce_amount r = Raise AttributeError /\ co_amount r = Raise AttributeError) /\
  (forall (w : World p) summary recs e,
     _fetch_ce_rightsizing p w = Some (Ok (summary, recs)) -> _sum_ce_savings p recs = Raise e ->
     choose_source p w = try_compute_optimizer p w).
Proof.
  split; [|split; [|split]].
  - intros. apply sum_loop_raise; assumption.
  - intros. apply sum_loop_raise; assumption.
  - intros r Hr. destruct r; try (split; reflexivity). exfalso. exact (Hr kvs eq_refl).
  - intros w summary recs e Hf Hs. unfold choose_source. rewrite Hf, Hs. reflexivity.
Qed.

(** ** The shape of the generated data *)

Lemma smaller_type_family (p : Platform) (t fam size : string) (s : St p) :
  py_split "." t = [fam; size] ->
  exists fam' s', _smaller_type p t s = Ok (fam' ++ "." ++ stepped_size size, s') /\
    swapped_family fam fam'.
Proof.
  intros Hsp. unfold _smaller_type. rewrite Hsp.
  rewrite (mbind_ok p _ _ s (stepped_size size) s (new_size_step p size s)). cbv beta.
  unfold swapped_family.
  destruct (String.prefix "m6i" fam) eqn:H1.
  - pose proof (prefix_m6i_not_t3 fam H1) as H2.
    rewrite (mbind_ok p _ _ _ _ _ (maybe_swap_draw p _ "m7g" _ s H1)). cbv beta.
    destruct (qlt (fst (rrandom p s)) (1 # 2)).
    + rewrite (mbind_ok p _ _ _ "m7g" _ (maybe_swap_skip p "t3" "t4g" "m7g" _ eq_refl)).
      do 2 eexists. split; [reflexivity|]. right; left; auto.
    + rewrite (mbind_ok p _ _ _ fam _ (maybe_swap_skip p "t3" "t4g" fam _ H2)).
      do 2 eexists. split; [reflexivity|]. left; reflexivity.
  - rewrite (mbind_ok p _ _ s fam s (maybe_swap_skip p _ _ _ s H1)). cbv beta.
    destruct (String.prefix "t3" fam) eqn:H2.
    + rewrite (mbind_ok p _ _ _ _ _ (maybe_swap_draw p _ "t4g" _ s H2)).
      do 2 eexists. split; [reflexivity|].
      destruct (qlt (fst (rrandom p s)) (1 # 2)); [right; right; auto | left; reflexivity].
    + rewrite (mbind_ok p _ _ s fam s (maybe_swap_skip p _ _ _ s H2)).
      do 2 eexists. split; [reflexivity|]. left; reflexivity.
Qed.

(** C1 (as amended): for a current type [fam.size] (no dot in either part),
    [_smaller_type] returns [fam'.new_size] where [fam'] is [fam] or its
    Graviton swap ([m7g] when [fam] starts with [m6i], [t4g] when it
    starts with [t3]); when [size] has ladder index [i], [new_size] has
    ladder index [max(i, 1) - 1] (so [micro] and [small] both give [micro],
    and the step never wraps to the top of the ladder); when [size] is not on
    the ladder, [new_size] is ["small"]. *)
Theorem smaller_type_steps_down (p : Platform) (fam size : string) (s : St p) :
  ~ In "."%char (list_ascii_of_string fam) ->
  ~ In "."%char (list_ascii_of_string size) ->
  exists fam' new_size s',
    _smaller_type p (fam ++ "." ++ size) s = Ok (fam' ++ "." ++ new_size, s') /\
    swapped_family fam fam' /\
    (forall i, list_index size order = Some i ->
       list_index new_size order = Some (Z.max i 1 - 1)%Z) /\
    (list_index size order = None -> new_size = "small").
Proof.
  intros Hf Hs.
  destruct (smaller_type_family p (fam ++ "." ++ size) fam size s (py_split_dot fam size Hf Hs))
    as [fam' [s' [E Hfam]]].
  exists fam', (stepped_size size), s'. repeat split; [exact E | exact Hfam | |].
  - intros i Hi. unfold stepped_size. rewrite Hi.
    pose proof (list_index_bound _ _ _ Hi) as B. simpl in B.
    assert (i = 0 \/ i = 1 \/ i = 2 \/ i = 3 \/ i = 4 \/ i = 5 \/ i = 6 \/ i = 7)%Z
      as Hc by lia.
    repeat destruct Hc as [->|Hc]; try reflexivity.
    subst. reflexivity.
  - intros Hn. unfold stepped_size. now rewrite Hn.
Qed.

Lemma smaller_type_steps_down_witness :
  ~ In "."%char (list_ascii_of_string "t3") /\
  ~ In "."%char (list_ascii_of_string "small") /\
  exists fam' new_size s',
    _smaller_type toy_platform ("t3" ++ "." ++ "small") 5%Z = Ok (fam' ++ "." ++ new_size, s') /\
    swapped_family "t3" fam' /\
    (forall i, list_index "small" order = Some i ->
       list_index new_size order = Some (Z.max i 1 - 1)%Z) /\
    (list_index "small" order = None -> new_size = "small").
Proof.
  split; [cbn; intuition discriminate|].
  split; [cbn; intuition discriminate|].
  apply (smaller_type_steps_down toy_platform "t3" "small" 5%Z); cbn; intuition discriminate.
Defined.

Lemma cents_bounds (u : Q) (lo hi : Z) :
  inject_Z lo <= u -> u <= inject_Z hi ->
  (100 * lo <= round2_cents u <= 100 * hi)%Z.
Proof.
  intros U0 U1. unfold round2_cents. apply round_half_even_bounds.
  - apply Qle_trans with (inject_Z lo * 100).
    + rewrite inject_Z_mult, Qmult_comm. apply Qle_refl.
    + apply Qmult_le_compat_r; [exact U0 | discriminate].
  - apply Qle_trans with (inject_Z hi * 100).
    + apply Qmult_le_compat_r; [exact U1 | discriminate].
    + rewrite inject_Z_mult, Qmult_comm. apply Qle_refl.
Qed.

Section GeneratorShape.

Context (p : Platform) (Hp : platform_ok p).

Lemma choices_hex (k : nat) (s : St p) :
  exists cs s', choices p hex_digits k s = Ok (cs, s') /\
    List.length cs = k /\ Forall (fun c => In c hex_digits) cs.
Proof.
  revert s. induction k as [|k IH]; intros s.
  - exists [], s. auto.
  - cbn [choices]. destruct (random_ok p Hp s) as [r [s1 [E [R0 R1]]]].
    erewrite mbind_ok by exact E. cbv beta.
    destruct (py_index_in hex_digits (Qfloor (fl p (r * inject_Z (Z.of_nat (List.length hex_digits))))))
      as [c [Hc Hin]].
    { exact (choices_index_in_range p Hp r R0 R1). }
    erewrite mbind_ok by (unfold mlift; rewrite Hc; reflexivity). cbv beta.
    destruct (IH s1) as [cs [s2 [E2 [L2 F2]]]].
    erewrite mbind_ok by exact E2.
    exists (c :: cs), s2. split; [reflexivity|]. split; [simpl; congruence | constructor; assumption].
Qed.

Lemma rand_instance_id_shape_ok (s : St p) :
  exists rid s', _rand_instance_id p s = Ok (rid, s') /\ instance_id_shape rid.
Proof.
  unfold _rand_instance_id.
  destruct (choices_hex 17 s) as [cs [s' [E [L F]]]].
  erewrite mbind_ok by exact E.
  eexists; eexists. split; [reflexivity|]. exists cs. auto.
Qed.

Lemma gen_one_shape (total : Q) (s : St p) :
  exists total' r s' c, gen_one p total s = Ok ((total', r), s') /\ generated_record r /\
    (300 <= c <= 12000)%Z /\ total' = fl p (total + inject_Z c / 100).
Proof.
  unfold gen_one.
  destruct (pick_in_catalog p Hp s) as [fam [sizes [size [s1 [E1 [In1 In2]]]]]].
  erewrite mbind_ok by exact E1. cbv beta.
  destruct (catalog_types_split fam sizes size In1 In2) as [Hsp _].
  destruct (smaller_type_family p _ fam size s1 Hsp) as [fam' [s2 [E2 Hfam]]].
  erewrite mbind_ok by exact E2. cbv beta.
  destruct (random_ok p Hp s2) as [r [s3 [E3 _]]].
  erewrite mbind_ok by exact E3. cbv beta zeta.
  destruct (uniform_bounds p Hp 3 120 s3 ltac:(lia) ltac:(lia)) as [u [s4 [E4 [U0 U1]]]].
  erewrite mbind_ok by exact E4. cbv beta.
  destruct (rand_instance_id_shape_ok s4) as [rid [s5 [E5 Hrid]]].
  erewrite mbind_ok by exact E5. cbv beta.
  destruct (randint_ok p Hp 10 99 s5 ltac:(lia)) as [k [s6 [E6 Hk]]].
  erewrite mbind_ok by exact E6. cbv beta.
  pose proof (cents_bounds u 3 120 U0 U1) as Hc.
  rewrite fmt_2f_cents by lia.
  destruct (qlt (1 # 4) r); unfold mret.
  - do 3 eexists. exists (round2_cents u). split; [reflexivity|].
    split; [|split; [lia | reflexivity]].
    exists fam, sizes, size, fam', (round2_cents u), k, rid.
    repeat split; auto; lia.
  - do 3 eexists. exists (round2_cents u). split; [reflexivity|].
    split; [|split; [lia | reflexivity]].
    exists fam, sizes, size, fam', (round2_cents u), k, rid.
    repeat split; auto; lia.
Qed.

Lemma fl_between (x : Q) (lo hi : Z) :
  (0 <= lo <= hi)%Z -> (hi <= 2 ^ 53)%Z -> inject_Z lo <= x -> x <= inject_Z hi ->
  inject_Z lo <= fl p x /\ fl p x <= inject_Z hi.
Proof.
  intros H0 H1 Hlo Hhi. split.
  - apply Qle_trans with (fl p (inject_Z lo)).
    + apply Qle_lteq. right. apply Qeq_sym. apply (fl_int p Hp). lia.
    + apply (fl_mono p Hp). exact Hlo.
  - apply Qle_trans with (fl p (inject_Z hi)).
    + apply (fl_mono p Hp). exact Hhi.
    + apply Qle_lteq. right. apply (fl_int p Hp). lia.
Qed.

Lemma gen_loop_shape (n : nat) (total : Q) (recs : list json) (s : St p) :
  Forall generated_record recs ->
  (n + List.length recs <= 1000)%nat ->
  inject_Z (3 * Z.of_nat (List.length recs)) <= total <= inject_Z (120 * Z.of_nat (List.length recs)) ->
  exists total' recs' s', gen_loop p n total recs s = Ok ((total', recs'), s') /\
    List.length recs' = (n + List.length recs)%nat /\ Forall generated_record recs' /\
    inject_Z (3 * Z.of_nat (List.length recs')) <= total' <= inject_Z (120 * Z.of_nat (List.length recs')).
Proof.
  revert total recs s. induction n as [|n IH]; intros total recs s HF HL [T0 T1].
  - exists total, recs, s. auto.
  - cbn [gen_loop].
    destruct (gen_one_shape total s) as [total1 [r [s1 [c [E1 [Hr [Hc ->]]]]]]].
    erewrite mbind_ok by exact E1. cbv beta. simpl fst; simpl snd.
    set (m := List.length recs) in *.
    assert (Hc0 : inject_Z 3 <= inject_Z c / 100).
    { apply Qle_shift_div_l; [reflexivity|].
      change (inject_Z 3 * 100) with (inject_Z 300). rewrite <- Zle_Qle. lia. }
    assert (Hc1 : inject_Z c / 100 <= inject_Z 120).
    { apply Qle_shift_div_r; [reflexivity|].
      change (inject_Z 120 * 100) with (inject_Z 12000). rewrite <- Zle_Qle. lia. }
    assert (B : inject_Z (3 * Z.of_nat (S m)) <= fl p (total + inject_Z c / 100) /\
                fl p (total + inject_Z c / 100) <= inject_Z (120 * Z.of_nat (S m))).
    { apply fl_between; try lia.
      - rewrite Nat2Z.inj_succ, Z.mul_succ_r, inject_Z_plus. apply Qplus_le_compat; assumption.
      - rewrite Nat2Z.inj_succ, Z.mul_succ_r, inject_Z_plus. apply Qplus_le_compat; assumption. }
    destruct (IH (fl p (total + inject_Z c / 100)) (recs ++ [r])%list s1) as [total2 [recs2 [s2 [E2 [L2 [F2 T2]]]]]].
    + apply Forall_app. auto.
    + rewrite length_app. simpl. fold m. lia.
    + rewrite length_app. simpl. fold m. rewrite Nat.add_1_r. exact B.
    + exists total2, recs2, s2. split; [exact E2|]. split; [|auto].
      rewrite L2, length_app. simpl. fold m. lia.
Qed.

Lemma gen_synthetic_shape (today : string) (s : St p) :
  exists summary recs s' ctot cpct,
    _gen_synthetic_recs p today s = Ok ((summary, recs), s') /\
    Forall generated_record recs /\ (2 <= List.length recs <= 5)%nat /\
    summary = JObj [("TotalEstimatedMonthlySavingsAmount", JStr (cents_str ctot));
                    ("TotalEstimatedMonthlySavingsCurrency", JStr "USD");
                    ("EstimatedSavingsPercentage", JStr (py_repr_2dec cpct))] /\
    (300 * Z.of_nat (List.length recs) <= ctot <= 12000 * Z.of_nat (List.length recs))%Z /\
    (500 <= cpct <= 5500)%Z.
Proof.
  unfold _gen_synthetic_recs.
  erewrite mbind_ok by reflexivity. cbv beta.
  destruct (randint_ok p Hp 2 5 (rseed p (_daily_seed p today)) ltac:(lia)) as [n [s1 [E1 Hn]]].
  erewrite mbind_ok by exact E1. cbv beta.
  destruct (gen_loop_shape (Z.to_nat n) 0 [] s1 (Forall_nil _) ltac:(simpl; lia)
              ltac:(split; apply Qle_refl))
    as [total [recs [s2 [E2 [L2 [F2 [T0 T1]]]]]]].
  erewrite mbind_ok by exact E2. cbv beta.
  destruct (uniform_bounds p Hp 5 55 s2 ltac:(lia) ltac:(lia)) as [u [s3 [E3 [U0 U1]]]].
  erewrite mbind_ok by exact E3. cbv beta. unfold mret.
  assert (Tpos : 0 <= total).
  { apply Qle_trans with (inject_Z (3 * Z.of_nat (List.length recs))); [|exact T0].
    change 0 with (inject_Z 0). rewrite <- Zle_Qle. lia. }
  assert (Hf : fmt_2f total = cents_str (round_half_even (Qabs total * 100))).
  { unfold fmt_2f. apply qlt_false in Tpos. rewrite Tpos. reflexivity. }
  assert (Ha : Qabs total * 100 == total * 100) by (rewrite Qabs_pos by exact Tpos; reflexivity).
  do 3 eexists. exists (round_half_even (Qabs total * 100)), (round2_cents u).
  split; [reflexivity|]. simpl fst; simpl snd.
  split; [exact F2|]. split; [rewrite L2; simpl; lia|].
  split; [rewrite Hf; reflexivity|].
  split; [|apply (cents_bounds u 5 55 U0 U1)].
  apply round_half_even_bounds.
  - rewrite Ha.
    apply Qle_trans with (inject_Z (3 * Z.of_nat (List.length recs)) * inject_Z 100).
    + rewrite <- inject_Z_mult, <- Zle_Qle. lia.
    + apply Qmult_le_compat_r; [exact T0 | discriminate].
  - rewrite Ha.
    apply Qle_trans with (inject_Z (120 * Z.of_nat (List.length recs)) * inject_Z 100).
    + apply Qmult_le_compat_r; [exact T1 | discriminate].
    + rewrite <- inject_Z_mult, <- Zle_Qle. lia.
Qed.

(** [_rand_instance_id] returns ["i-"] followed by exactly 17 characters
    of [0123456789abcdef]. *)
Theorem rand_instance_id_shape (s : St p) :
  exists rid s', _rand_instance_id p s = Ok (rid, s') /\ instance_id_shape rid.
Proof. exact (rand_instance_id_shape_ok s). Qed.

(** Every record of a generator run names a catalog type ([FAMILIES]) as
    its current type, an id ["i-"] plus 17 hex digits, and a name
    ["app-NN"] ([Modify]) or ["batch-NN"] ([Terminate]) with [NN] in
    [10, 99]; a [Modify] record's target has the size [stepped_size] gives
    (ladder index [max(i, 1) - 1], so [micro] stays [micro]), in the same
    family or its [m7g]/[t4g] swap, and repeats the headline amount in its
    target. *)
Theorem generated_records_shape (today : string) (s : St p) :
  exists summary recs s',
    _gen_synthetic_recs p today s = Ok ((summary, recs), s') /\
    Forall generated_record recs.
Proof.
  destruct (gen_synthetic_shape today s) as [summary [recs [s' [_ [_ [E [F _]]]]]]].
  exists summary, recs, s'. auto.
Qed.

(** The generator's summary gives currency ["USD"], a total printed with
    two decimals between 3.00 and 120.00 per record, and a percentage that
    is the repr of a two-decimal value between 5.0 and 55.0. *)
Theorem synthetic_summary_fields (today : string) (s : St p) :
  exists summary recs s' ctot cpct,
    _gen_synthetic_recs p today s = Ok ((summary, recs), s') /\
    summary = JObj [("TotalEstimatedMonthlySavingsAmount", JStr (cents_str ctot));
                    ("TotalEstimatedMonthlySavingsCurrency", JStr "USD");
                    ("EstimatedSavingsPercentage", JStr (py_repr_2dec cpct))] /\
    (300 * Z.of_nat (List.length recs) <= ctot <= 12000 * Z.of_nat (List.length recs))%Z /\
    (500 <= cpct <= 5500)%Z.
Proof.
  destruct (gen_synthetic_shape today s)
    as [summary [recs [s' [ctot [cpct [E [_ [_ [Hs [H1 H2]]]]]]]]]].
  exists summary, recs, s', ctot, cpct. auto.
Qed.

End GeneratorShape.

(** ** Source selection and the handler's outputs *)

Lemma synthesize_source (p : Platform) (w : World p) src summary recs :
  synthesize p w = Ok (src, summary, recs) -> src = "synthetic".
Proof.
  unfold synthesize. destruct (_any_running_instances p w) as [b | e]; cbn [res_bind]; [|discriminate].
  destruct (negb b); destruct (_gen_synthetic_recs p (seed_date p w) (rng p w)) as [[sr s'] | e];
    try discriminate; intros H; injection H as <- _ _; reflexivity.
Qed.

Lemma try_compute_optimizer_source (p : Platform) (w : World p) src summary recs :
  try_compute_optimizer p w = Some (Ok (src, summary, recs)) ->
  src = "compute-optimizer" \/ src = "synthetic".
Proof.
  unfold try_compute_optimizer.
  destruct (_fetch_co_rightsizing p w) as [[[sm rs] | e] |]; [| | discriminate].
  - destruct (_sum_co_savings p rs) as [t | e].
    + destruct (qlt t (MIN_SAVINGS p)); intros H.
      * injection H as H. right. exact (synthesize_source p w src summary recs H).
      * injection H as <- _ _. left. reflexivity.
    + intros H; injection H as H. right. exact (synthesize_source p w src summary recs H).
  - intros H; injection H as H. right. exact (synthesize_source p w src summary recs H).
Qed.

Lemma choose_source_source (p : Platform) (w : World p) src summary recs :
  choose_source p w = Some (Ok (src, summary, recs)) ->
  src = "cost-explorer" \/ src = "compute-optimizer" \/ src = "synthetic".
Proof.
  unfold choose_source.
  destruct (_fetch_ce_rightsizing p w) as [[[sm rs] | e] |]; [| | discriminate].
  - destruct (_sum_ce_savings p rs) as [t | e].
    + destruct (qlt t (MIN_SAVINGS p)).
      * intros H. right. exact (try_compute_optimizer_source p w src summary recs H).
      * intros H; injection H as <- _ _. left. reflexivity.
    + intros H. right. exact (try_compute_optimizer_source p w src summary recs H).
  - intros H. right. exact (try_compute_optimizer_source p w src summary recs H).
Qed.

Lemma choose_source_ce_fails (p : Platform) (w : World p) :
  ce_attempt_fails p w -> choose_source p w = try_compute_optimizer p w.
Proof.
  unfold ce_attempt_fails, choose_source.
  destruct (_fetch_ce_rightsizing p w) as [[[summary recs] | e] |]; [| reflexivity | contradiction].
  destruct (_sum_ce_savings p recs) as [t | e]; [| reflexivity].
  intros H. apply qlt_true in H. rewrite H. reflexivity.
Qed.

(** Every payload the handler writes has [source] one of
    ["cost-explorer"], ["compute-optimizer"] or ["synthetic"], the same as
    the returned dict's; [recommendation_target] is
    ["CROSS_INSTANCE_FAMILY"] and [benefits_considered] is [true] for
    ["cost-explorer"], and both are [None] for the other two sources. *)
Theorem handler_source_and_ce_fields (p : Platform) (w : World p) calls ret k env :
  lambda_handler p w = Some (Ok (calls, ret)) -> In (PutObject k env) calls ->
  exists src,
    py_get env "source" JNull = Ok (JStr src) /\ py_get ret "source" JNull = Ok (JStr src) /\
    ((src = "cost-explorer" /\
      py_get env "recommendation_target" JNull = Ok (JStr "CROSS_INSTANCE_FAMILY") /\
      py_get env "benefits_considered" JNull = Ok (JBool true)) \/
     ((src = "compute-optimizer" \/ src = "synthetic") /\
      py_get env "recommendation_target" JNull = Ok JNull /\
      py_get env "benefits_considered" JNull = Ok JNull)).
Proof.
  intros H Hin.
  destruct (lambda_handler_calls p w calls ret H) as [source [summary [recs [Hc ->]]]].
  assert (Hret : py_get ret "source" JNull = Ok (JStr source)).
  { revert H. unfold lambda_handler. rewrite Hc. intros H. simpl in H. injection H as <-. reflexivity. }
  assert (env = envelope (now_iso p w) source summary recs) as ->.
  { simpl in Hin. destruct Hin as [Hx | [Hx | [Hx | []]]]; try discriminate;
      injection Hx as _ Hx; symmetry; exact Hx. }
  exists source. split; [reflexivity|]. split; [exact Hret|].
  destruct (choose_source_source p w source summary recs Hc) as [-> | [-> | ->]].
  - left. repeat split.
  - right. repeat split. left. reflexivity.
  - right. repeat split. right. reflexivity.
Qed.

(** When Cost Explorer fails (its fetch or aggregate raises, or its total
    is below [MIN_SAVINGS]) and Compute Optimizer's fetch succeeds with an
    aggregate of at least [MIN_SAVINGS], the handler picks
    ["compute-optimizer"] with that fetch's summary and records. *)
Theorem co_pass_publishes_co (p : Platform) (w : World p) summary recs (t : Q) :
  ce_attempt_fails p w ->
  _fetch_co_rightsizing p w = Some (Ok (summary, recs)) ->
  _sum_co_savings p recs = Ok t ->
  MIN_SAVINGS p <= t ->
  choose_source p w = Some (Ok ("compute-optimizer", summary, recs)).
Proof.
  intros Hce Hf Hs Ht. rewrite (choose_source_ce_fails p w Hce).
  unfold try_compute_optimizer. rewrite Hf, Hs.
  apply qlt_false in Ht. rewrite Ht. reflexivity.
Qed.

(** A real source, once chosen, does not depend on the liveness probe or
    on the random generator: any invocation with the same answers from
    Cost Explorer and Compute Optimizer chooses the same source, summary
    and records, whatever [describe_instances], the date seed or the
    random state. *)
Theorem real_source_skips_fallback (p : Platform) (w w' : World p) src summary recs :
  ce_responses p w' = ce_responses p w ->
  co_responses p w' = co_responses p w ->
  co_enrollment p w' = co_enrollment p w ->
  choose_source p w = Some (Ok (src, summary, recs)) ->
  src <> "synthetic" ->
  choose_source p w' = Some (Ok (src, summary, recs)).
Proof.
  intros Hce Hco Hen H Hsrc.
  assert (Fce : _fetch_ce_rightsizing p w' = _fetch_ce_rightsizing p w).
  { unfold _fetch_ce_rightsizing. rewrite Hce. reflexivity. }
  assert (Fco : _fetch_co_rightsizing p w' = _fetch_co_rightsizing p w).
  { unfold _fetch_co_rightsizing, enrollment_status. rewrite Hco, Hen. reflexivity. }
  revert H. unfold choose_source, try_compute_optimizer. rewrite Fce, Fco.
  destruct (_fetch_ce_rightsizing p w) as [[[sm rs] | e] |]; [| | discriminate];
  [destruct (_sum_ce_savings p rs) as [t | e]; [destruct (qlt t (MIN_SAVINGS p)) | ] | ];
  try (intros H; exact H);
  (destruct (_fetch_co_rightsizing p w) as [[[sm' rs'] | e'] |]; [| | discriminate];
   [destruct (_sum_co_savings p rs') as [t' | e']; [destruct (qlt t' (MIN_SAVINGS p)) | ] | ];
   try (intros H; exact H);
   intros H; injection H as H; apply synthesize_source in H; contradiction).
Qed.

(** When Cost Explorer's records pass the threshold, Compute Optimizer,
    the liveness probe and the generator are never consulted: any
    invocation with the same Cost Explorer answers chooses the same
    ["cost-explorer"] summary and records. *)
Theorem ce_pass_ignores_other_sources (p : Platform) (w w' : World p) summary recs :
  ce_responses p w' = ce_responses p w ->
  choose_source p w = Some (Ok ("cost-explorer", summary, recs)) ->
  choose_source p w' = Some (Ok ("cost-explorer", summary, recs)).
Proof.
  intros Hce H.
  assert (Fce : _fetch_ce_rightsizing p w' = _fetch_ce_rightsizing p w).
  { unfold _fetch_ce_rightsizing. rewrite Hce. reflexivity. }
  revert H. unfold choose_source. rewrite Fce.
  destruct (_fetch_ce_rightsizing p w) as [[[sm rs] | e] |]; [| | discriminate];
  [destruct (_sum_ce_savings p rs) as [t | e]; [destruct (qlt t (MIN_SAVINGS p)) | ] | ];
  try (intros H; exact H);
  intros H; apply try_compute_optimizer_source in H; destruct H; discriminate.
Qed.

(** ** Instances of the further properties *)

Lemma fetch_ce_concatenates_pages_witness :
  _fetch_ce_rightsizing toy_platform
    (toy_world [Ok (JObj [("RightsizingRecommendations", JArr [ce_terminate_with_amount JNull]);
                          ("Summary", JObj [("Total", JStr "0")]);
                          ("NextPageToken", JStr "p2"); ("Metadata", JObj [])]);
                Ok (JObj [("RightsizingRecommendations", JArr [ce_terminate_with_amount (JStr "4")]);
                          ("Configuration", JObj [])])]
               [] (Raise ClientError) (Ok ec2_one_running)) =
    Some (Ok (JObj [("Total", JStr "0")],
              [ce_terminate_with_amount JNull; ce_terminate_with_amount (JStr "4")])).
Proof.
  apply (fetch_ce_concatenates_pages toy_platform _
           [([("RightsizingRecommendations", JArr [ce_terminate_with_amount JNull]);
              ("Summary", JObj [("Total", JStr "0")]);
              ("NextPageToken", JStr "p2"); ("Metadata", JObj [])], [ce_terminate_with_amount JNull])]
           [("RightsizingRecommendations", JArr [ce_terminate_with_amount (JStr "4")]);
            ("Configuration", JObj [])]
           [ce_terminate_with_amount (JStr "4")] []);
    [repeat constructor | reflexivity | reflexivity | reflexivity].
Defined.


Lemma fetch_co_concatenates_pages_witness :
  _fetch_co_rightsizing toy_platform
    (toy_world [] [Ok (JObj [("instanceRecommendations", JArr [co_with_value (JNum 3)]);
                             ("nextToken", JStr "n2")]);
                   Ok (JObj [("instanceRecommendations", JArr [co_with_value (JNum 2)]);
                             ("errors", JArr [])])]
               (Ok (JObj [("status", JStr "Active")])) (Ok ec2_one_running)) =
    Some (Ok (JObj [("compute_optimizer_enrollment_status", JStr "Active")],
              [co_with_value (JNum 3); co_with_value (JNum 2)])).
Proof.
  apply (fetch_co_concatenates_pages toy_platform _
           [([("instanceRecommendations", JArr [co_with_value (JNum 3)]); ("nextToken", JStr "n2")],
             [co_with_value (JNum 3)])]
           [("instanceRecommendations", JArr [co_with_value (JNum 2)]); ("errors", JArr [])]
           [co_with_value (JNum 2)] [] [("status", JStr "Active")]);
    [repeat constructor | reflexivity | reflexivity | reflexivity | reflexivity].
Defined.

Lemma smaller_type_random_use_witness :
  ~ In "."%char (list_ascii_of_string "m6i") /\
  ~ In "."%char (list_ascii_of_string "large") /\
  ((String.prefix "m6i" "m6i" = false -> String.prefix "t3" "m6i" = false ->
     _smaller_type toy_platform ("m6i" ++ "." ++ "large") 0%Z =
       Ok ("m6i" ++ "." ++ stepped_size "large", 0%Z)) /\
   (String.prefix "m6i" "m6i" = true ->
     _smaller_type toy_platform ("m6i" ++ "." ++ "large") 0%Z =
       Ok ((if qlt (fst (rrandom toy_platform 0%Z)) (1 # 2) then "m7g" else "m6i") ++ "." ++
           stepped_size "large", snd (rrandom toy_platform 0%Z))) /\
   (String.prefix "t3" "m6i" = true ->
     _smaller_type toy_platform ("m6i" ++ "." ++ "large") 0%Z =
       Ok ((if qlt (fst (rrandom toy_platform 0%Z)) (1 # 2) then "t4g" else "m6i") ++ "." ++
           stepped_size "large", snd (rrandom toy_platform 0%Z)))).
Proof.
  split; [cbn; intuition discriminate|]. split; [cbn; intuition discriminate|].
  apply (smaller_type_random_use toy_platform "m6i" "large" 0%Z); cbn; intuition discriminate.
Defined.

Lemma rand_instance_id_shape_witness :
  platform_ok toy_platform /\
  exists rid s', _rand_instance_id toy_platform 0%Z = Ok (rid, s') /\ instance_id_shape rid.
Proof.
  split; [exact toy_platform_ok|].
  apply (rand_instance_id_shape toy_platform toy_platform_ok 0%Z).
Defined.

Lemma generated_records_shape_witness :
  platform_ok toy_platform /\
  exists summary recs s',
    _gen_synthetic_recs toy_platform "2026-10-16" 0%Z = Ok ((summary, recs), s') /\
    Forall generated_record recs.
Proof.
  split; [exact toy_platform_ok|].
  apply (generated_records_shape toy_platform toy_platform_ok "2026-10-16" 0%Z).
Defined.

Lemma synthetic_summary_fields_witness :
  platform_ok toy_platform /\
  exists summary recs s' ctot cpct,
    _gen_synthetic_recs toy_platform "2026-10-16" 0%Z = Ok ((summary, recs), s') /\
    summary = JObj [("TotalEstimatedMonthlySavingsAmount", JStr (cents_str ctot));
                    ("TotalEstimatedMonthlySavingsCurrency", JStr "USD");
                    ("EstimatedSavingsPercentage", JStr (py_repr_2dec cpct))] /\
    (300 * Z.of_nat (List.length recs) <= ctot <= 12000 * Z.of_nat (List.length recs))%Z /\
    (500 <= cpct <= 5500)%Z.
Proof.
  split; [exact toy_platform_ok|].
  apply (synthetic_summary_fields toy_platform toy_platform_ok "2026-10-16" 0%Z).
Defined.

Lemma handler_source_and_ce_fields_witness :
  exists calls ret k env,
    lambda_handler toy_platform world_ce_at_threshold = Some (Ok (calls, ret)) /\
    In (PutObject k env) calls /\
    exists src,
      py_get env "source" JNull = Ok (JStr src) /\ py_get ret "source" JNull = Ok (JStr src) /\
      ((src = "cost-explorer" /\
        py_get env "recommendation_target" JNull = Ok (JStr "CROSS_INSTANCE_FAMILY") /\
        py_get env "benefits_considered" JNull = Ok (JBool true)) \/
       ((src = "compute-optimizer" \/ src = "synthetic") /\
        py_get env "recommendation_target" JNull = Ok JNull /\
        py_get env "benefits_considered" JNull = Ok JNull)).
Proof.
  do 4 eexists. split; [reflexivity|]. split; [left; reflexivity|].
  eapply (handler_source_and_ce_fields toy_platform world_ce_at_threshold); [reflexivity | left; reflexivity].
Defined.

Lemma co_pass_publishes_co_witness :
  ce_attempt_fails toy_platform world_co_pass /\
  exists summary recs t,
    _fetch_co_rightsizing toy_platform world_co_pass = Some (Ok (summary, recs)) /\
    _sum_co_savings toy_platform recs = Ok t /\
    MIN_SAVINGS toy_platform <= t /\
    choose_source toy_platform world_co_pass = Some (Ok ("compute-optimizer", summary, recs)).
Proof.
  assert (Hce : ce_attempt_fails toy_platform world_co_pass).
  { unfold ce_attempt_fails. apply qlt_true. reflexivity. }
  split; [exact Hce|].
  do 3 eexists. split; [reflexivity|]. split; [reflexivity|].
  assert (Ht : MIN_SAVINGS toy_platform <= 5) by (apply Qle_bool_iff; reflexivity).
  split; [exact Ht|].
  eapply (co_pass_publishes_co toy_platform world_co_pass); [exact Hce | reflexivity | reflexivity | exact Ht].
Defined.

Lemma real_source_skips_fallback_witness :
  exists summary recs,
    choose_source toy_platform world_co_pass = Some (Ok ("compute-optimizer", summary, recs)) /\
    choose_source toy_platform (with_ec2 toy_platform world_co_pass (Raise BotoCoreError)) =
      Some (Ok ("compute-optimizer", summary, recs)).
Proof.
  do 2 eexists. split; [reflexivity|].
  apply (real_source_skips_fallback toy_platform world_co_pass); [reflexivity | reflexivity | reflexivity | reflexivity | discriminate].
Defined.

Lemma ce_pass_ignores_other_sources_witness :
  exists summary recs,
    choose_source toy_platform world_ce_at_threshold = Some (Ok ("cost-explorer", summary, recs)) /\
    choose_source toy_platform
      (toy_world (ce_responses toy_platform world_ce_at_threshold)
                 [Raise BotoCoreError] (Raise BotoCoreError) (Raise BotoCoreError)) =
      Some (Ok ("cost-explorer", summary, recs)).
Proof.
  do 2 eexists. split; [reflexivity|].
  apply (ce_pass_ignores_other_sources toy_platform world_ce_at_threshold); reflexivity.
Defined.
